(** * Schwab 1099-B CSV to TXF converter: a shallow embedding

    The development follows [convert_schwab_csv_to_txf.py].  Text is
    modelled by [string] (a sequence of 8-bit characters; the embedding of
    the Python string methods is exact on ASCII text), floating-point
    numbers by the IEEE-754 binary64 instance of [spec_float], the row
    dictionaries built by [csv.DictReader] by [gmap string value], and the
    body of the conversion loop by a state-and-exception monad. *)

From Stdlib Require Import ZArith Lia Bool List Ascii String.
From Stdlib Require Import Floats.SpecFloat.
From stdpp Require Import base option list strings gmap.

Local Open Scope string_scope.

(** Concatenation of strings computes under [simpl] on a constructor. *)
#[global] Arguments String.append !_ _ /.

(** ** Python string methods *)

Module Str.

(** [str.isspace] on a single ASCII character: TAB, LF, VT, FF, CR,
    FS, GS, RS, US and the blank. *)
Definition is_space (c : ascii) : bool :=
  let n := N_of_ascii c in
  ((9 <=? n) && (n <=? 13) || (28 <=? n) && (n <=? 32))%N.

Definition is_digit (c : ascii) : bool :=
  let n := N_of_ascii c in ((48 <=? n) && (n <=? 57))%N.

Definition is_empty (s : string) : bool :=
  match s with EmptyString => true | String _ _ => false end.

Fixpoint lstrip_by (space : ascii -> bool) (s : string) : string :=
  match s with
  | String c s' => if space c then lstrip_by space s' else s
  | EmptyString => EmptyString
  end.

Fixpoint rstrip_by (space : ascii -> bool) (s : string) : string :=
  match s with
  | String c s' =>
      let r := rstrip_by space s' in
      if space c && is_empty r then EmptyString else String c r
  | EmptyString => EmptyString
  end.

(** Leading and trailing characters of a class removed. *)
Definition strip_by (space : ascii -> bool) (s : string) : string :=
  rstrip_by space (lstrip_by space s).

(** [s.strip()] *)
Definition strip (s : string) : string := strip_by is_space s.

(** [s.startswith(p)] *)
Fixpoint startswith (p s : string) : bool :=
  match p, s with
  | EmptyString, _ => true
  | String a p', String b s' => (Ascii.eqb a b) && startswith p' s'
  | String _ _, EmptyString => false
  end.

(** [s.replace] of every comma by nothing *)
Fixpoint remove_commas (s : string) : string :=
  match s with
  | String c s' =>
      if Ascii.eqb c "," then remove_commas s' else String c (remove_commas s')
  | EmptyString => EmptyString
  end.

Definition upper_char (c : ascii) : ascii :=
  let n := N_of_ascii c in
  if ((97 <=? n) && (n <=? 122))%N then ascii_of_N (n - 32) else c.

Definition lower_char (c : ascii) : ascii :=
  let n := N_of_ascii c in
  if ((65 <=? n) && (n <=? 90))%N then ascii_of_N (n + 32) else c.

Fixpoint map_chars (f : ascii -> ascii) (s : string) : string :=
  match s with
  | String c s' => String (f c) (map_chars f s')
  | EmptyString => EmptyString
  end.

(** [s.upper()] and [s.lower()] *)
Definition upper : string -> string := map_chars upper_char.
Definition lower : string -> string := map_chars lower_char.

(** [str.join] on the empty separator *)
Definition join (l : list string) : string := fold_right String.append "" l.

(** The lines of a text, each with its terminating newline kept (the
    iteration protocol of text files and of [io.StringIO]). *)
Fixpoint readlines (s : string) : list string :=
  match s with
  | EmptyString => []
  | String c s' =>
      if Ascii.eqb c "010" then String c EmptyString :: readlines s'
      else match readlines s' with
           | [] => [String c EmptyString]
           | l :: ls => String c l :: ls
           end
  end.

End Str.

(** ** The [csv] module: reader state machine and [DictReader] *)

Module Csv.

(** States of the reader reachable under the default (excel) dialect:
    comma delimiter, double-quote character, doubled quotes, no escape
    character, no initial-space skipping, non-strict. *)
Inductive ParserState :=
| START_RECORD | START_FIELD | IN_FIELD | IN_QUOTED_FIELD
| QUOTE_IN_QUOTED_FIELD | EAT_CRNL.

Record Reader := {
  state : ParserState;
  fields : list string;
  field : string
}.

Definition field_limit : N := 131072.

Definition parse_reset : Reader :=
  {| state := START_RECORD; fields := []; field := "" |}.

Definition set_state (st : ParserState) (r : Reader) : Reader :=
  {| state := st; fields := fields r; field := field r |}.

Definition parse_save_field (r : Reader) : Reader :=
  {| state := state r; fields := fields r ++ [field r]; field := "" |}.

(** [None] is the [csv.Error] raised for a field larger than the field
    limit. *)
Definition parse_add_char (r : Reader) (c : ascii) : option Reader :=
  if (field_limit <=? N.of_nat (String.length (field r)))%N then None
  else Some {| state := state r; fields := fields r;
               field := field r ++ String c "" |}.

Definition is_newline (c : ascii) : bool :=
  Ascii.eqb c "010" || Ascii.eqb c "013".

Definition delimiter : ascii := ",".
Definition quotechar : ascii := "034".

(** One step of the machine; the character [None] is the end-of-line
    marker fed after the last character of every line. *)
Definition parse_process_char (r : Reader) (c : option ascii) : option Reader :=
  let start_field (r : Reader) :=
    match c with
    | None => Some (set_state START_RECORD (parse_save_field r))
    | Some ch =>
        if is_newline ch then Some (set_state EAT_CRNL (parse_save_field r))
        else if Ascii.eqb ch quotechar then Some (set_state IN_QUOTED_FIELD r)
        else if Ascii.eqb ch delimiter then Some (parse_save_field r)
        else set_state IN_FIELD <$> parse_add_char r ch
    end in
  match state r with
  | START_RECORD =>
      match c with
      | None => Some r
      | Some ch =>
          if is_newline ch then Some (set_state EAT_CRNL r)
          else start_field (set_state START_FIELD r)
      end
  | START_FIELD => start_field r
  | IN_FIELD =>
      match c with
      | None => Some (set_state START_RECORD (parse_save_field r))
      | Some ch =>
          if is_newline ch then Some (set_state EAT_CRNL (parse_save_field r))
          else if Ascii.eqb ch delimiter
          then Some (set_state START_FIELD (parse_save_field r))
          else parse_add_char r ch
      end
  | IN_QUOTED_FIELD =>
      match c with
      | None => Some r
      | Some ch =>
          if Ascii.eqb ch quotechar then Some (set_state QUOTE_IN_QUOTED_FIELD r)
          else parse_add_char r ch
      end
  | QUOTE_IN_QUOTED_FIELD =>
      match c with
      | None => Some (set_state START_RECORD (parse_save_field r))
      | Some ch =>
          if Ascii.eqb ch quotechar
          then set_state IN_QUOTED_FIELD <$> parse_add_char r ch
          else if Ascii.eqb ch delimiter
          then Some (set_state START_FIELD (parse_save_field r))
          else if is_newline ch
          then Some (set_state EAT_CRNL (parse_save_field r))
          else set_state IN_FIELD <$> parse_add_char r ch
      end
  | EAT_CRNL =>
      match c with
      | None => Some (set_state START_RECORD r)
      | Some ch => if is_newline ch then Some r else None
      end
  end.

(** Feed one line, then the end-of-line marker. *)
Fixpoint feed_line (r : Reader) (line : string) : option Reader :=
  match line with
  | String c rest =>
      match parse_process_char r (Some c) with
      | Some r' => feed_line r' rest
      | None => None
      end
  | EmptyString => parse_process_char r None
  end.

Definition is_in_quoted_field (st : ParserState) : bool :=
  match st with IN_QUOTED_FIELD => true | _ => false end.

(** The rows produced by iterating the reader over the given lines,
    starting in state [r], together with the way the iteration ends:
    [false] for exhaustion, [true] for a [csv.Error]. *)
Fixpoint reader_rows (r : Reader) (lines : list string)
  : list (list string) * bool :=
  match lines with
  | [] =>
      if negb (Str.is_empty (field r)) || is_in_quoted_field (state r)
      then ([fields (parse_save_field r)], false)
      else ([], false)
  | l :: ls =>
      match feed_line r l with
      | None => ([], true)
      | Some r' =>
          match state r' with
          | START_RECORD =>
              let '(rows, e) := reader_rows parse_reset ls in
              (fields r' :: rows, e)
          | _ => reader_rows r' ls
          end
      end
  end.

Definition reader (lines : list string) : list (list string) * bool :=
  reader_rows parse_reset lines.

(** The values of a [DictReader] row: a field of the line, or [None]
    ([restval]) where the line is shorter than the header. *)
Inductive value := VStr (s : string) | VNone.

(** [dict(zip(fieldnames, row))]: later duplicates of a key win. *)
Definition dict_zip (fieldnames row : list string) : gmap string value :=
  foldl (fun d kv => <[kv.1 := VStr kv.2]> d) ∅ (zip fieldnames row).

(** One row of [DictReader.__next__].  The entry under the key [None]
    ([restkey]) that collects surplus fields is not a string key and is
    never read by the converter; it is left out. *)
Definition make_row (fieldnames row : list string) : gmap string value :=
  foldl (fun d k => <[k := VNone]> d) (dict_zip fieldnames row)
        (drop (length row) fieldnames).

Definition is_nil {A} (l : list A) : bool :=
  match l with [] => true | _ => false end.

(** [csv.DictReader(io)]: the first row gives the field names, empty
    rows are dropped. *)
Definition DictReader (lines : list string)
  : list (gmap string value) * bool :=
  let '(rows, e) := reader lines in
  match rows with
  | [] => ([], e)
  | fieldnames :: data =>
      (map (make_row fieldnames) (filter (fun row => negb (is_nil row)) data), e)
  end.

End Csv.

(** ** [datetime.strptime] and [strftime] for the format [%m/%d/%Y] *)

Module Date.

Local Open Scope Z_scope.

Definition digit (c : ascii) : Z := Z.of_N (N_of_ascii c) - 48.

Definition in_range (lo hi : ascii) (c : ascii) : bool :=
  ((N_of_ascii lo <=? N_of_ascii c) && (N_of_ascii c <=? N_of_ascii hi))%N.

(** The regular expression of a directive is an ordered alternation; a
    match attempt yields, in backtracking order, the value read and the
    rest of the string. *)

(** [%m]: [1[0-2]|0[1-9]|[1-9]] *)
Definition re_m (s : string) : list (Z * string) :=
  (match s with
   | String a (String b r) =>
       (if Ascii.eqb a "1" && in_range "0" "2" b then [(10 + digit b, r)] else [])
       ++ (if Ascii.eqb a "0" && in_range "1" "9" b then [(digit b, r)] else [])
   | _ => []
   end)
  ++ (match s with
      | String a r => if in_range "1" "9" a then [(digit a, r)] else []
      | _ => []
      end).

(** [%d]: [3[0-1]|[1-2]\d|0[1-9]|[1-9]| [1-9]] *)
Definition re_d (s : string) : list (Z * string) :=
  (match s with
   | String a (String b r) =>
       (if Ascii.eqb a "3" && in_range "0" "1" b then [(30 + digit b, r)] else [])
       ++ (if in_range "1" "2" a && Str.is_digit b
           then [(10 * digit a + digit b, r)] else [])
       ++ (if Ascii.eqb a "0" && in_range "1" "9" b then [(digit b, r)] else [])
   | _ => []
   end)
  ++ (match s with
      | String a r => if in_range "1" "9" a then [(digit a, r)] else []
      | _ => []
      end)
  ++ (match s with
      | String a (String b r) =>
          if Ascii.eqb a " " && in_range "1" "9" b then [(digit b, r)] else []
      | _ => []
      end).

(** [%Y]: four digits *)
Definition re_Y (s : string) : list (Z * string) :=
  match s with
  | String a (String b (String c (String d r))) =>
      if Str.is_digit a && Str.is_digit b && Str.is_digit c && Str.is_digit d
      then [(1000 * digit a + 100 * digit b + 10 * digit c + digit d, r)]
      else []
  | _ => []
  end.

Definition re_slash (s : string) : list string :=
  match s with
  | String a r => if Ascii.eqb a "/" then [r] else []
  | _ => []
  end.

(** All matches of the compiled format at the start of [s], in the order
    in which the backtracking matcher finds them. *)
Definition re_matches (s : string) : list (Z * Z * Z * string) :=
  '(m, r1) ← re_m s;
  r2 ← re_slash r1;
  '(d, r3) ← re_d r2;
  r4 ← re_slash r3;
  '(y, r5) ← re_Y r4;
  [(y, m, d, r5)].

Definition is_leap (y : Z) : bool :=
  (y mod 4 =? 0) && (negb (y mod 100 =? 0) || (y mod 400 =? 0)).

Definition days_in_month (y m : Z) : Z :=
  if m =? 2 then (if is_leap y then 29 else 28)
  else if (m =? 4) || (m =? 6) || (m =? 9) || (m =? 11) then 30
  else 31.

Record date := { year : Z; month : Z; day : Z }.

(** The [date] constructor: [None] is its [ValueError]. *)
Definition make_date (y m d : Z) : option date :=
  if (1 <=? y) && (y <=? 9999) && (1 <=? m) && (m <=? 12)
     && (1 <=? d) && (d <=? days_in_month y m)
  then Some {| year := y; month := m; day := d |}
  else None.

(** [datetime.strptime(s, fmt)] for the format [%m/%d/%Y]: the first
    match must consume the whole string and give a valid calendar date;
    [None] is the [ValueError]. *)
Definition strptime (s : string) : option date :=
  match re_matches s with
  | (y, m, d, rest) :: _ =>
      if Str.is_empty rest then make_date y m d else None
  | [] => None
  end.

Definition digit_char (n : Z) : ascii := ascii_of_N (Z.to_N (48 + n mod 10)).

Definition two_digits (n : Z) : string :=
  String (digit_char (n / 10)) (String (digit_char n) "").

Definition four_digits (n : Z) : string :=
  String (digit_char (n / 1000)) (String (digit_char (n / 100))
    (String (digit_char (n / 10)) (String (digit_char n) ""))).

(** [d.strftime(fmt)] for the format [%m/%d/%Y], the year with century
    written on four digits, as documented; for years from 1000 on every
    platform prints the same text. *)
Definition strftime (d : date) : string :=
  two_digits (month d) ++ "/" ++ two_digits (day d) ++ "/" ++ four_digits (year d).

End Date.

(** ** Python floats: [float(str)], arithmetic, and the [.2f] format *)

Module Float.

Local Open Scope Z_scope.

Definition prec : Z := 53.
Definition emax : Z := 1024.

Abbreviation float := spec_float.

Definition zero : float := S754_zero false.
Definition add : float -> float -> float := SFadd prec emax.
Definition sub : float -> float -> float := SFsub prec emax.

(** [x != y] *)
Definition ne (x y : float) : bool := negb (SFeqb x y).

(** The quotient [n / d] rounded to the nearest integer, ties to even
    ([0 <= n], [0 < d]). *)
Definition rne_div (n d : Z) : Z :=
  let q := n / d in
  match 2 * (n mod d) ?= d with
  | Lt => q
  | Gt => q + 1
  | Eq => if Z.even q then q else q + 1
  end.

(** [p / q] as a fraction over [2 ^ e]. *)
Definition scaled (p q e : Z) : Z * Z :=
  if 0 <=? e then (p, q * 2 ^ e) else (p * 2 ^ (- e), q).

(** The binary64 number nearest to [p / q] ([0 < p], [0 < q]), ties to
    even, with gradual underflow and overflow to infinity: the correctly
    rounded conversion of [strtod]. *)
Definition of_ratio (neg : bool) (p q : Z) : float :=
  let e0 := Z.log2 p - Z.log2 q - prec in
  let '(n0, d0) := scaled p q e0 in
  let e1 := if 2 ^ prec <=? n0 / d0 then e0 + 1 else e0 in
  let e2 := Z.max e1 (3 - emax - prec) in
  let '(n, d) := scaled p q e2 in
  let m := rne_div n d in
  let '(m', e') := if m =? 2 ^ prec then (2 ^ (prec - 1), e2 + 1) else (m, e2) in
  match m' with
  | Zpos mp => if e' <=? emax - prec then S754_finite neg mp e'
               else S754_infinity neg
  | _ => S754_zero neg
  end.

(** The binary64 number nearest to [m * 10 ^ e10]. *)
Definition of_decimal (neg : bool) (m e10 : Z) : float :=
  if m =? 0 then S754_zero neg
  else if 0 <=? e10 then of_ratio neg (m * 10 ^ e10) 1
  else of_ratio neg m (10 ^ (- e10)).

Fixpoint take_digits (s : string) : string * string :=
  match s with
  | String c r =>
      if Str.is_digit c
      then let '(ds, rest) := take_digits r in (String c ds, rest)
      else (EmptyString, s)
  | EmptyString => (EmptyString, EmptyString)
  end.

Fixpoint digits_value (acc : Z) (s : string) : Z :=
  match s with
  | String c r => digits_value (10 * acc + Date.digit c) r
  | EmptyString => acc
  end.

Definition take_sign (s : string) : bool * string :=
  match s with
  | String c r =>
      if Ascii.eqb c "-" then (true, r)
      else if Ascii.eqb c "+" then (false, r)
      else (false, s)
  | EmptyString => (false, s)
  end.

Definition take_exponent (s : string) : Z * string :=
  match s with
  | String c r =>
      if Ascii.eqb c "e" || Ascii.eqb c "E" then
        let '(eneg, r1) := take_sign r in
        let '(ds, r2) := take_digits r1 in
        if Str.is_empty ds then (0, s)
        else ((if eneg then - digits_value 0 ds else digits_value 0 ds), r2)
      else (0, s)
  | EmptyString => (0, s)
  end.

(** [strtod]: an optional sign, digits with an optional point (at least
    one digit), an optional exponent; the value and the unread rest.
    [None] when no number starts the string. *)
Definition strtod (s : string) : option (float * string) :=
  let '(neg, s1) := take_sign s in
  let '(ip, s2) := take_digits s1 in
  let '(fp, s3) :=
    match s2 with
    | String c r => if Ascii.eqb c "." then take_digits r else (EmptyString, s2)
    | EmptyString => (EmptyString, s2)
    end in
  if Str.is_empty ip && Str.is_empty fp then None
  else
    let '(e, s4) := take_exponent s3 in
    Some (of_decimal neg (digits_value 0 (ip ++ fp))
                     (e - Z.of_nat (String.length fp)), s4).

Fixpoint skip (n : nat) (s : string) : string :=
  match n, s with
  | S n', String _ r => skip n' r
  | _, _ => s
  end.

(** An optional sign, then [inf], [infinity] or [nan] in any case. *)
Definition parse_inf_or_nan (s : string) : option (float * string) :=
  let '(neg, s1) := take_sign s in
  if Str.startswith "inf" (Str.lower s1) then
    let s2 := skip 3 s1 in
    Some (S754_infinity neg,
          if Str.startswith "inity" (Str.lower s2) then skip 5 s2 else s2)
  else if Str.startswith "nan" (Str.lower s1) then Some (S754_nan, skip 3 s1)
  else None.

(** Underscores are dropped when each stands between two digits;
    [None] otherwise. *)
Fixpoint remove_underscores (prev : ascii) (s : string) : option string :=
  match s with
  | String c r =>
      if Ascii.eqb c "_" then
        if Str.is_digit prev then remove_underscores c r else None
      else if Ascii.eqb prev "_" && negb (Str.is_digit c) then None
      else String c <$> remove_underscores c r
  | EmptyString => if Ascii.eqb prev "_" then None else Some EmptyString
  end.

(** The C locale white space that [float] skips at both ends of an
    ASCII string: TAB, LF, VT, FF, CR and the blank. *)
Definition py_isspace (c : ascii) : bool :=
  let n := N_of_ascii c in
  ((9 <=? n) && (n <=? 13) || (n =? 32))%N.

(** [float(s)] for a string [s]; [None] is the [ValueError]. *)
Definition of_string (s : string) : option float :=
  match remove_underscores "000" (Str.strip_by py_isspace s) with
  | Some t =>
      match strtod t with
      | Some (x, rest) => if Str.is_empty rest then Some x else None
      | None =>
          match parse_inf_or_nan t with
          | Some (x, rest) => if Str.is_empty rest then Some x else None
          | None => None
          end
      end
  | None => None
  end.

(** Decimal digits of a natural number, most significant first. *)
Fixpoint dec_digits (fuel : nat) (n : Z) (acc : string) : string :=
  let acc' := String (Date.digit_char n) acc in
  match fuel with
  | O => acc'
  | S f => if n / 10 =? 0 then acc' else dec_digits f (n / 10) acc'
  end.

Definition dec (n : Z) : string := dec_digits (Z.to_nat (Z.log2 n)) n "".

(** The magnitude [m * 2 ^ e] in hundredths, rounded to nearest, ties
    to even. *)
Definition centis (m : positive) (e : Z) : Z :=
  if 0 <=? e then Zpos m * 2 ^ e * 100 else rne_div (Zpos m * 100) (2 ^ (- e)).

Definition sign_string (neg : bool) : string := if neg then "-" else "".

(** The format [.2f]. *)
Definition format_2f (x : float) : string :=
  match x with
  | S754_nan => "nan"
  | S754_infinity neg => sign_string neg ++ "inf"
  | S754_zero neg => sign_string neg ++ "0.00"
  | S754_finite neg m e =>
      let c := centis m e in
      sign_string neg ++ dec (c / 100) ++ "." ++ Date.two_digits (c mod 100)
  end.

End Float.

(** ** The converter *)

Import Csv.

Abbreviation float := spec_float.

Definition nl : string := String "010" "".
Definition dquote : string := String "034" "".

(** Exceptions raised while converting.  [KeyError] is named by a
    handler of the row loop. *)
Inductive exn :=
| ValueError (msg : string)
| AttributeError (attr : string)
| KeyError (key : string)
| CsvError.

(** What is printed on the standard output: a line of text, or one of
    the two row diagnostics, which carry the row and the message. *)
Inductive message :=
| Line (s : string)
| ErrorProcessingRow (row : gmap string value) (e : string)
| MissingRequiredColumn (row : gmap string value) (e : string).

(** The mutable state of a run: the four running totals, the contents
    of the output file ([None] while it does not exist) and the standard
    output. *)
Record state := {
  total_proceeds : float;
  total_basis : float;
  total_wash : float;
  total_wash_adjusted_gain_loss : float;
  txf_file : option string;
  stdout : list message
}.

Inductive result (A : Type) :=
| Return (a : A)
| Raise (e : exn).
Arguments Return {A} a.
Arguments Raise {A} e.

(** State that survives exceptions. *)
Definition M (A : Type) : Type := state -> state * result A.

#[global] Instance M_ret : MRet M := fun A a st => (st, Return a).
#[global] Instance M_bind : MBind M := fun A B k m st =>
  match m st with
  | (st', Return a) => k a st'
  | (st', Raise e) => (st', Raise e)
  end.

Definition raise {A} (e : exn) : M A := fun st => (st, Raise e).

Definition modify (f : state -> state) : M unit := fun st => (f st, Return tt).

Definition get_state : M state := fun st => (st, Return st).

(** [try: m except ValueError as e: h e] *)
Definition except_ValueError {A} (m : M A) (h : string -> M A) : M A :=
  fun st =>
    match m st with
    | (st', Raise (ValueError e)) => h e st'
    | r => r
    end.

(** [try: m except KeyError as e: h e] *)
Definition except_KeyError {A} (m : M A) (h : string -> M A) : M A :=
  fun st =>
    match m st with
    | (st', Raise (KeyError e)) => h e st'
    | r => r
    end.

Definition st_print (msg : message) (st : state) : state :=
  {| total_proceeds := total_proceeds st; total_basis := total_basis st;
     total_wash := total_wash st;
     total_wash_adjusted_gain_loss := total_wash_adjusted_gain_loss st;
     txf_file := txf_file st; stdout := stdout st ++ [msg] |}.

Definition st_open_w (st : state) : state :=
  {| total_proceeds := total_proceeds st; total_basis := total_basis st;
     total_wash := total_wash st;
     total_wash_adjusted_gain_loss := total_wash_adjusted_gain_loss st;
     txf_file := Some ""; stdout := stdout st |}.

Definition st_write (s : string) (st : state) : state :=
  {| total_proceeds := total_proceeds st; total_basis := total_basis st;
     total_wash := total_wash st;
     total_wash_adjusted_gain_loss := total_wash_adjusted_gain_loss st;
     txf_file := Some (default "" (txf_file st) ++ s); stdout := stdout st |}.

Definition st_add_wash_adjusted (x : float) (st : state) : state :=
  {| total_proceeds := total_proceeds st; total_basis := total_basis st;
     total_wash := total_wash st;
     total_wash_adjusted_gain_loss :=
       Float.add (total_wash_adjusted_gain_loss st) x;
     txf_file := txf_file st; stdout := stdout st |}.

Definition st_add_totals (p b w : float) (st : state) : state :=
  {| total_proceeds := Float.add (total_proceeds st) p;
     total_basis := Float.add (total_basis st) b;
     total_wash := Float.add (total_wash st) w;
     total_wash_adjusted_gain_loss := total_wash_adjusted_gain_loss st;
     txf_file := txf_file st; stdout := stdout st |}.

(** [print(msg)] *)
Definition print (msg : message) : M unit := modify (st_print msg).

(** [open(path, 'w')]: the file is created or truncated. *)
Definition open_w : M unit := modify st_open_w.

(** [output_file.write(s)] *)
Definition write (s : string) : M unit := modify (st_write s).

(** [float(s)] *)
Definition py_float (s : string) : M float :=
  match Float.of_string s with
  | Some x => mret x
  | None => raise (ValueError "could not convert string to float")
  end.

(** [datetime.strptime(s, fmt).strftime(fmt)] *)
Definition reformat_date (s : string) : M string :=
  match Date.strptime s with
  | Some d => mret (Date.strftime d)
  | None => raise (ValueError "time data does not match format")
  end.

(** A string method called on a value of the row: an [AttributeError]
    on [None]. *)
Definition method (attr : string) (f : string -> string) (v : value) : M string :=
  match v with
  | VStr s => mret (f s)
  | VNone => raise (AttributeError attr)
  end.

(** [row.get(key, default)] *)
Definition get (row : gmap string value) (key default : string) : value :=
  match row !! key with
  | Some v => v
  | None => VStr default
  end.

Definition write_txf_header : M unit :=
  let header :=
    "V042" ++ nl ++
    "ACharles Schwab" ++ nl ++
    "D02/23/2025" ++ nl ++
    "^" ++ nl in
  write header.

Definition write_txf_record
  (description date_acquired date_sold proceeds basis wash record_type : string)
  : M unit :=
  p ← py_float proceeds;
  let proceeds_formatted := Float.format_2f p in
  b ← py_float basis;
  let basis_formatted := Float.format_2f b in
  wash_formatted ←
    (if Str.is_empty wash then mret "0.00"
     else w ← py_float wash; mret (Float.format_2f w));
  let record :=
    "TD" ++ nl ++
    record_type ++ nl ++
    "C1" ++ nl ++
    "L1" ++ nl ++
    "P" ++ description ++ nl ++
    "D" ++ date_acquired ++ nl ++
    "D" ++ date_sold ++ nl ++
    "$" ++ basis_formatted ++ nl ++
    "$" ++ proceeds_formatted ++ nl in
  wf ← py_float wash_formatted;
  let record :=
    if Float.ne wf Float.zero then record ++ "$" ++ wash_formatted ++ nl
    else record in
  let record := record ++ "^" ++ nl in
  write record.

Definition form_8949_to_record_type : gmap string string :=
  <["X" := "N711"]> (<["F" := "N714"]> (<["E" := "N713"]> (<["D" := "N323"]>
  (<["C" := "N712"]> (<["B" := "N711"]> (<["A" := "N321"]> ∅)))))).

Definition header_text : string :=
  dquote ++ "Description of property (Example 100 sh. XYZ Co.)" ++ dquote.

(** The search loop for the header row: the index of the first line
    whose stripped text starts with the header text. *)
Fixpoint find_header (i : nat) (lines : list string) : option nat :=
  match lines with
  | line :: rest =>
      if Str.startswith header_text (Str.strip line) then Some i
      else find_header (S i) rest
  | [] => None
  end.

(** The body of the [try] statement of the row loop. *)
Definition row_body (row : gmap string value) : M unit :=
  description ←
    method "strip" Str.strip
      (get row "Description of property (Example 100 sh. XYZ Co.)" "");
  date_acquired ← method "strip" Str.strip (get row "Date acquired" "");
  date_sold ← method "strip" Str.strip (get row "Date sold or disposed" "");
  proceeds ←
    method "replace" (fun s => Str.strip (Str.remove_commas s))
      (get row "Proceeds" "0.00");
  basis ←
    method "replace" (fun s => Str.strip (Str.remove_commas s))
      (get row "Cost or other basis" "0.00");
  wash ←
    method "replace" (fun s => Str.strip (Str.remove_commas s))
      (get row "Wash sale loss disallowed" "0.00");
  form_8949_code ←
    method "strip" (fun s => Str.upper (Str.strip s)) (get row "Form 8949 Code" "");
  let wash := if Str.startswith "$" wash then Float.skip 1 wash else wash in
  '(proceeds_float, basis_float, wash_float) ←
    except_ValueError
      (p ← py_float proceeds;
       b ← py_float basis;
       w ← (if Str.is_empty wash then mret Float.zero else py_float wash);
       mret (p, b, w))
      (fun _ => raise (ValueError "Invalid monetary value in row"));
  let wash_adjusted_gain_loss :=
    Float.sub proceeds_float (Float.sub basis_float wash_float) in
  _ ← modify (st_add_wash_adjusted wash_adjusted_gain_loss);
  date_sold_formatted ←
    except_ValueError (reformat_date date_sold)
      (fun _ => raise (ValueError "Invalid Date sold or disposed format"));
  date_acquired_formatted ←
    (if Str.is_empty date_acquired then mret date_sold_formatted
     else if String.eqb (Str.lower date_acquired) "various" then mret "VARIOUS"
     else except_ValueError (reformat_date date_acquired)
            (fun _ => raise (ValueError "Invalid Date acquired format")));
  let record_type := default "N711" (form_8949_to_record_type !! form_8949_code) in
  _ ← modify (st_add_totals proceeds_float basis_float wash_float);
  write_txf_record description date_acquired_formatted date_sold_formatted
    proceeds basis (if Float.ne wash_float Float.zero then wash else "") record_type.

(** One iteration of the row loop: the body under its two handlers. *)
Definition process_row (row : gmap string value) : M unit :=
  except_KeyError
    (except_ValueError (row_body row)
       (fun e => print (ErrorProcessingRow row e)))
    (fun e => print (MissingRequiredColumn row e)).

(** [for row in reader: ...]; a [csv.Error] of the reader ends the
    loop after the rows read before it. *)
Fixpoint for_rows (rows : list (gmap string value)) (csv_error : bool) : M unit :=
  match rows with
  | row :: rest => _ ← process_row row; for_rows rest csv_error
  | [] => if csv_error then raise CsvError else mret tt
  end.

Definition print_totals : M unit :=
  st ← get_state;
  _ ← print (Line "Verify these totals with your Schwab 1099-B summary:");
  _ ← print (Line ("Total Proceeds: $" ++ Float.format_2f (total_proceeds st)));
  _ ← print (Line ("Total Basis: $" ++ Float.format_2f (total_basis st)));
  _ ← print (Line ("Total Wash Sale Adjustments: $"
                   ++ Float.format_2f (total_wash st)));
  _ ← print (Line ("Total Gain/Loss: $"
                   ++ Float.format_2f (Float.sub (total_proceeds st) (total_basis st))));
  print (Line ("Wash-Adjusted Total Gain/Loss: $"
               ++ Float.format_2f (total_wash_adjusted_gain_loss st))).

(** The text handed to [DictReader]: the stripped header row, a
    newline, and the lines after the header. *)
Definition csv_content (header_index : nat) (lines : list string) : string :=
  Str.strip (default "" (lines !! header_index)) ++ nl
  ++ Str.join (drop (S header_index) lines).

(** [convert_schwab_csv_to_txf], on the text of the input file. *)
Definition convert_schwab_csv_to_txf (text : string) : M unit :=
  let lines := Str.readlines text in
  match find_header 0 lines with
  | None => raise (ValueError "No Form 1099-B header found in the CSV file")
  | Some header_index =>
      let '(rows, csv_error) :=
        DictReader (Str.readlines (csv_content header_index lines)) in
      _ ← open_w;
      _ ← write_txf_header;
      _ ← for_rows rows csv_error;
      print_totals
  end.

(** The state in which a run starts: totals at zero, nothing printed,
    and whatever the output path holds before the run. *)
Definition initial_state (existing : option string) : state :=
  {| total_proceeds := Float.zero; total_basis := Float.zero;
     total_wash := Float.zero; total_wash_adjusted_gain_loss := Float.zero;
     txf_file := existing; stdout := [] |}.

Definition run (existing : option string) (text : string) : state * result unit :=
  convert_schwab_csv_to_txf text (initial_state existing).

(** ** Vocabulary of the specification *)

(** The lines of a block, each ended by a newline. *)
Definition unlines (ls : list string) : string :=
  Str.join (map (fun l => l ++ nl) ls).

(** The four lines of the file header. *)
Definition header_lines : list string :=
  ["V042"; "ACharles Schwab"; "D02/23/2025"; "^"].

(** The lines of a record block, in the order of the TXF format, with
    the wash-sale line optional. *)
Definition record_lines
  (record_type description date_acquired date_sold basis proceeds : string)
  (wash : option string) : list string :=
  ["TD"; record_type; "C1"; "L1"; "P" ++ description;
   "D" ++ date_acquired; "D" ++ date_sold; "$" ++ basis; "$" ++ proceeds]
  ++ match wash with Some w => ["$" ++ w] | None => [] end
  ++ ["^"].

(** The record type of a trimmed, uppercased Form 8949 code. *)
Definition record_type_of (code : string) : string :=
  default "N711" (form_8949_to_record_type !! code).

(** The cleaned fields of a row: the local variables of the loop body
    once the cells are read and the dollar sign is taken off the
    wash-sale cell. *)
Record Fields := {
  f_description : string;
  f_date_acquired : string;
  f_date_sold : string;
  f_proceeds : string;
  f_basis : string;
  f_wash : string;
  f_form_8949_code : string
}.

Definition cell (attr : string) (v : value) : exn + string :=
  match v with
  | VStr s => inr s
  | VNone => inl (AttributeError attr)
  end.

Definition clean_amount (s : string) : string :=
  Str.strip (Str.remove_commas s).

Definition drop_dollar (s : string) : string :=
  if Str.startswith "$" s then Float.skip 1 s else s.

(** Reading the seven cells of a row, in the order of the source; the
    first cell that is [None] gives the [AttributeError]. *)
Definition extract (row : gmap string value) : exn + Fields :=
  match cell "strip" (get row "Description of property (Example 100 sh. XYZ Co.)" "") with
  | inl e => inl e
  | inr d =>
  match cell "strip" (get row "Date acquired" "") with
  | inl e => inl e
  | inr da =>
  match cell "strip" (get row "Date sold or disposed" "") with
  | inl e => inl e
  | inr ds =>
  match cell "replace" (get row "Proceeds" "0.00") with
  | inl e => inl e
  | inr p =>
  match cell "replace" (get row "Cost or other basis" "0.00") with
  | inl e => inl e
  | inr b =>
  match cell "replace" (get row "Wash sale loss disallowed" "0.00") with
  | inl e => inl e
  | inr w =>
  match cell "strip" (get row "Form 8949 Code" "") with
  | inl e => inl e
  | inr c =>
      inr {| f_description := Str.strip d;
             f_date_acquired := Str.strip da;
             f_date_sold := Str.strip ds;
             f_proceeds := clean_amount p;
             f_basis := clean_amount b;
             f_wash := drop_dollar (clean_amount w);
             f_form_8949_code := Str.upper (Str.strip c) |}
  end end end end end end end.

(** The three amounts of a row as numbers; an empty wash-sale field
    counts as zero.  [None] when one of them is not a number. *)
Definition monetary (f : Fields) : option (float * float * float) :=
  match Float.of_string (f_proceeds f), Float.of_string (f_basis f) with
  | Some p, Some b =>
      if Str.is_empty (f_wash f) then Some (p, b, Float.zero)
      else match Float.of_string (f_wash f) with
           | Some w => Some (p, b, w)
           | None => None
           end
  | _, _ => None
  end.

(** The wash-adjusted gain or loss of a row. *)
Definition wash_adjusted (p b w : float) : float :=
  Float.sub p (Float.sub b w).

(** The resolved acquisition date, given the normalized date sold;
    [None] when the field is neither empty, nor the word various, nor a
    date. *)
Definition resolve_date_acquired (date_acquired date_sold_formatted : string)
  : option string :=
  if Str.is_empty date_acquired then Some date_sold_formatted
  else if String.eqb (Str.lower date_acquired) "various" then Some "VARIOUS"
  else Date.strftime <$> Date.strptime date_acquired.

(** The wash-sale line of a record: absent when the amount written on
    two decimals is zero. *)
Definition wash_line (w : float) : option string :=
  match w with
  | S754_zero _ => None
  | S754_finite _ m e =>
      if Float.centis m e =? 0 then None else Some (Float.format_2f w)
  | _ => Some (Float.format_2f w)
  end%Z.

(** A normalized transaction. *)
Record Transaction := {
  t_description : string;
  t_date_acquired : string;
  t_date_sold : string;
  t_proceeds : float;
  t_basis : float;
  t_wash : float;
  t_record_type : string
}.

(** The record block of a transaction. *)
Definition txf_block (t : Transaction) : string :=
  unlines (record_lines (t_record_type t) (t_description t)
             (t_date_acquired t) (t_date_sold t)
             (Float.format_2f (t_basis t)) (Float.format_2f (t_proceeds t))
             (wash_line (t_wash t))).

(** What becomes of a row: a transaction is emitted; or the row is
    skipped with a diagnostic, its wash-adjusted gain or loss counted or
    not; or the run crashes. *)
Inductive outcome :=
| Emitted (t : Transaction)
| Skipped (counted : option float) (msg : string)
| Crashed (e : exn).

(** The transaction normalizer. *)
Definition normalize (row : gmap string value) : outcome :=
  match extract row with
  | inl e => Crashed e
  | inr f =>
      match monetary f with
      | None => Skipped None "Invalid monetary value in row"
      | Some (p, b, w) =>
          let gain := wash_adjusted p b w in
          match Date.strptime (f_date_sold f) with
          | None => Skipped (Some gain) "Invalid Date sold or disposed format"
          | Some sold =>
              match resolve_date_acquired (f_date_acquired f) (Date.strftime sold) with
              | None => Skipped (Some gain) "Invalid Date acquired format"
              | Some acquired =>
                  Emitted {| t_description := f_description f;
                             t_date_acquired := acquired;
                             t_date_sold := Date.strftime sold;
                             t_proceeds := p; t_basis := b; t_wash := w;
                             t_record_type := record_type_of (f_form_8949_code f) |}
              end
          end
      end
  end.

Definition count (counted : option float) (st : state) : state :=
  match counted with
  | Some x => st_add_wash_adjusted x st
  | None => st
  end.

(** The effect of an outcome on the state of the run. *)
Definition apply_outcome (row : gmap string value) (o : outcome) (st : state)
  : state * result unit :=
  match o with
  | Emitted t =>
      (st_write (txf_block t)
         (st_add_totals (t_proceeds t) (t_basis t) (t_wash t)
            (st_add_wash_adjusted
               (wash_adjusted (t_proceeds t) (t_basis t) (t_wash t)) st)),
       Return tt)
  | Skipped counted msg =>
      (st_print (ErrorProcessingRow row msg) (count counted st), Return tt)
  | Crashed e => (st, Raise e)
  end.

(** The transactions emitted for a sequence of rows, up to the first
    row that crashes the run. *)
Fixpoint emitted (rows : list (gmap string value)) : list Transaction :=
  match rows with
  | row :: rest =>
      match normalize row with
      | Emitted t => t :: emitted rest
      | Skipped _ _ => emitted rest
      | Crashed _ => []
      end
  | [] => []
  end.

(** The rows that [DictReader] yields for an input text in which the
    header row is found. *)
Definition rows_of (text : string) : list (gmap string value) :=
  let lines := Str.readlines text in
  match find_header 0 lines with
  | Some header_index =>
      fst (DictReader (Str.readlines (csv_content header_index lines)))
  | None => []
  end.

(** The finite numbers: neither an infinity nor a NaN. *)
Definition is_finite (x : float) : bool :=
  match x with
  | S754_zero _ | S754_finite _ _ _ => true
  | _ => false
  end.

(** The magnitude of a finite number in hundredths, rounded as the
    [.2f] format rounds. *)
Definition hundredths (x : float) : option Z :=
  match x with
  | S754_zero _ => Some 0%Z
  | S754_finite _ m e => Some (Float.centis m e)
  | _ => None
  end.

(** The header row names a column. *)
Definition has_column (key : string) (fieldnames : list string) : bool :=
  existsb (String.eqb key) fieldnames.

(** The resolved acquisition date of a row when both of its dates pass
    validation. *)
Definition validated_dates (f : Fields) : option (string * string) :=
  match Date.strptime (f_date_sold f) with
  | Some sold =>
      match resolve_date_acquired (f_date_acquired f) (Date.strftime sold) with
      | Some acquired => Some (acquired, Date.strftime sold)
      | None => None
      end
  | None => None
  end.

(** A sign, digits, a point and exactly two digits. *)
Definition has_two_decimals (s : string) : bool :=
  let s1 := match s with
            | String c r => if Ascii.eqb c "-" then r else s
            | EmptyString => s
            end in
  let '(ip, r) := Float.take_digits s1 in
  negb (Str.is_empty ip)
  && match r with
     | String p (String d1 (String d2 EmptyString)) =>
         Ascii.eqb p "." && Str.is_digit d1 && Str.is_digit d2
     | _ => false
     end.

(** All characters of a string satisfy a test. *)
Fixpoint all_chars (P : ascii -> bool) (s : string) : bool :=
  match s with
  | String c r => P c && all_chars P r
  | EmptyString => true
  end.

(** The characters of a number printed by the [.2f] format. *)
Definition plain (c : ascii) : bool :=
  Str.is_digit c || Ascii.eqb c "-" || Ascii.eqb c ".".

(** A number printed as a sign, an integer part, a point and two
    digits. *)
Definition printed (neg : bool) (a b : Z) : string :=
  Float.sign_string neg ++ Float.dec a ++ "." ++ Date.two_digits b.

(** What [float] reads back from a number printed by the [.2f]
    format. *)
Definition reparse (x : float) : float :=
  match x with
  | S754_finite neg m e => Float.of_decimal neg (Float.centis m e) (- 2)
  | _ => x
  end.

(** ** Sample inputs *)

Definition sample_header : string :=
  header_text ++ ",Date acquired,Date sold or disposed,Proceeds,"
  ++ "Cost or other basis,Wash sale loss disallowed,Form 8949 Code".

(** A data line whose cells are all quoted. *)
Definition quoted_line (cells : list string) : string :=
  match cells with
  | [] => nl
  | c :: cs =>
      fold_left (fun acc x => acc ++ "," ++ dquote ++ x ++ dquote) cs
                (dquote ++ c ++ dquote) ++ nl
  end.

(** Four lines of preamble, the header row at the fifth line, a valid
    row, a row with an invalid acquisition date and a row acquired at
    various dates with a wash-sale amount. *)
Definition sample_text : string :=
  "Schwab One Account" ++ nl ++ "Form 1099-B" ++ nl ++ nl
  ++ "Proceeds from broker transactions" ++ nl
  ++ sample_header ++ nl
  ++ quoted_line ["100 sh. XYZ Co."; "01/01/2023"; "02/01/2024";
                  "1,500.00"; "1,000.00"; ""; "A"]
  ++ quoted_line ["5 sh. ABC"; "13/45/2024"; "02/01/2024"; "10"; "20"; ""; "D"]
  ++ quoted_line ["7 sh. DEF"; "Various"; "3/4/2024"; "1500"; "2000.5";
                  "$12.345"; "e"].

(** A row whose wash-sale amount is a tenth of a cent. *)
Definition small_wash_text : string :=
  sample_header ++ nl
  ++ quoted_line ["100 sh. XYZ Co."; "01/01/2023"; "02/01/2024";
                  "1,500.00"; "1,000.00"; "0.001"; "A"].

(** A row whose proceeds cell reads inf. *)
Definition inf_proceeds_text : string :=
  sample_header ++ nl
  ++ quoted_line ["100 sh. XYZ Co."; "01/01/2023"; "02/01/2024";
                  "inf"; "1,000.00"; ""; "A"].

(** A line with a single cell before a valid row. *)
Definition short_row_text : string :=
  sample_header ++ nl
  ++ "Total" ++ nl
  ++ quoted_line ["100 sh. XYZ Co."; "01/01/2023"; "02/01/2024";
                  "1,500.00"; "1,000.00"; ""; "A"].

(** The field names of the sample header row. *)
Definition sample_fieldnames : list string :=
  ["Description of property (Example 100 sh. XYZ Co.)"; "Date acquired";
   "Date sold or disposed"; "Proceeds"; "Cost or other basis";
   "Wash sale loss disallowed"; "Form 8949 Code"].

(** A row with an acquisition date that is no calendar date. *)
Definition bad_acquired_row : gmap string value :=
  make_row sample_fieldnames
    ["5 sh. ABC"; "13/45/2024"; "02/01/2024"; "10"; "20"; ""; "D"].

(** A row with a wash-sale amount. *)
Definition wash_row : gmap string value :=
  make_row sample_fieldnames
    ["7 sh. DEF"; "Various"; "3/4/2024"; "1500"; "2000.5"; "$12.345"; "e"].

(** The cleaned fields of the row with a wash-sale amount. *)
Definition wash_fields : Fields :=
  {| f_description := "7 sh. DEF"; f_date_acquired := "Various";
     f_date_sold := "3/4/2024"; f_proceeds := "1500"; f_basis := "2000.5";
     f_wash := "12.345"; f_form_8949_code := "E" |}.

(** A row read under a header row without the code column. *)
Definition no_code_row : gmap string value :=
  make_row
    ["Description of property (Example 100 sh. XYZ Co.)"; "Date acquired";
     "Date sold or disposed"; "Proceeds"; "Cost or other basis";
     "Wash sale loss disallowed"]
    ["100 sh. XYZ Co."; "01/01/2023"; "02/01/2024"; "1,500.00"; "1,000.00"; ""].

Definition no_code_fields : Fields :=
  {| f_description := "100 sh. XYZ Co."; f_date_acquired := "01/01/2023";
     f_date_sold := "02/01/2024"; f_proceeds := "1500.00";
     f_basis := "1000.00"; f_wash := ""; f_form_8949_code := "" |}.

(** The number that a string reads as. *)
Definition amount (s : string) : float :=
  default Float.zero (Float.of_string s).

(** A header row without the proceeds column. *)
Definition no_proceeds_fieldnames : list string :=
  ["Description of property (Example 100 sh. XYZ Co.)"; "Date acquired";
   "Date sold or disposed"; "Cost or other basis";
   "Wash sale loss disallowed"; "Form 8949 Code"].

Definition no_proceeds_cells : list string :=
  ["100 sh. XYZ Co."; "01/01/2023"; "02/01/2024"; "1,000.00"; ""; "A"].

(** ** Vocabulary of the run as a whole *)

(** A running total: the amounts of the transactions added one after
    the other, in order, by floating-point addition. *)
Definition sum_of (amount : Transaction -> float) (ts : list Transaction)
  (start : float) : float :=
  fold_left (fun acc t => Float.add acc (amount t)) ts start.

(** The gains counted into the wash-adjusted total: one for every row
    whose amounts are numbers, emitted or not, up to the first row that
    crashes the run. *)
Fixpoint counted_gains (rows : list (gmap string value)) : list float :=
  match rows with
  | row :: rest =>
      match normalize row with
      | Emitted t =>
          wash_adjusted (t_proceeds t) (t_basis t) (t_wash t)
          :: counted_gains rest
      | Skipped (Some g) _ => g :: counted_gains rest
      | Skipped None _ => counted_gains rest
      | Crashed _ => []
      end
  | [] => []
  end.

(** The diagnostics of the skipped rows, up to the first row that
    crashes the run. *)
Fixpoint diagnostics (rows : list (gmap string value)) : list message :=
  match rows with
  | row :: rest =>
      match normalize row with
      | Emitted _ => diagnostics rest
      | Skipped _ msg => ErrorProcessingRow row msg :: diagnostics rest
      | Crashed _ => []
      end
  | [] => []
  end.

(** How the row loop ends: with the exception of the first row that
    crashes, else with the error of the reader, else normally. *)
Fixpoint loop_result (rows : list (gmap string value)) (csv_error : bool)
  : result unit :=
  match rows with
  | row :: rest =>
      match normalize row with
      | Crashed e => Raise e
      | _ => loop_result rest csv_error
      end
  | [] => if csv_error then Raise CsvError else Return tt
  end.

(** Whether the reader fails on an input text in which the header row
    is found. *)
Definition csv_error_of (text : string) : bool :=
  let lines := Str.readlines text in
  match find_header 0 lines with
  | Some header_index =>
      snd (DictReader (Str.readlines (csv_content header_index lines)))
  | None => false
  end.

(** The six lines of the totals report. *)
Definition totals_lines (proceeds basis wash gain : float) : list message :=
  [Line "Verify these totals with your Schwab 1099-B summary:";
   Line ("Total Proceeds: $" ++ Float.format_2f proceeds);
   Line ("Total Basis: $" ++ Float.format_2f basis);
   Line ("Total Wash Sale Adjustments: $" ++ Float.format_2f wash);
   Line ("Total Gain/Loss: $" ++ Float.format_2f (Float.sub proceeds basis));
   Line ("Wash-Adjusted Total Gain/Loss: $" ++ Float.format_2f gain)].

(** A text is made of whole lines: it is empty or ends with a
    newline. *)
Fixpoint whole_lines (s : string) : bool :=
  match s with
  | EmptyString => true
  | String c EmptyString => Ascii.eqb c "010"
  | String _ r => whole_lines r
  end.

(** A line that does not start the table. *)
Definition not_header (line : string) : bool :=
  negb (Str.startswith header_text (Str.strip line)).

(** A line that is a whole record by itself: after it the reader is
    back at the start of a record. *)
Definition complete_record (line : string) : bool :=
  match feed_line parse_reset line with
  | Some r => match Csv.state r with START_RECORD => true | _ => false end
  | None => false
  end.

(** The cells that the reader reads from a line fed at the start of a
    record. *)
Definition record_of (line : string) : list string :=
  match feed_line parse_reset line with
  | Some r => fields r
  | None => []
  end.

(** The names of a list are pairwise distinct. *)
Fixpoint distinct (names : list string) : bool :=
  match names with
  | [] => true
  | name :: rest => negb (existsb (String.eqb name) rest) && distinct rest
  end.

(** ** Paths, files and the command line *)

Module Path.

Local Open Scope Z_scope.

(** [s.rfind(c)]: the index of the last occurrence of a character, or
    [-1]. *)
Fixpoint rfind (c : ascii) (s : string) : Z :=
  match s with
  | EmptyString => -1
  | String a r =>
      let i := rfind c r in
      if 0 <=? i then i + 1 else if Ascii.eqb a c then 0 else -1
  end.

(** [s[i:i+1]] *)
Fixpoint slice1 (i : nat) (s : string) : string :=
  match s, i with
  | EmptyString, _ => EmptyString
  | String a _, O => String a EmptyString
  | String _ r, S i' => slice1 i' r
  end.

(** [s[:n]] *)
Fixpoint take (n : nat) (s : string) : string :=
  match n, s with
  | S n', String a r => String a (take n' r)
  | _, _ => EmptyString
  end.

(** The loop that skips the leading dots of the file name: whether it
    meets a character that is no dot before the last dot. *)
Fixpoint skip_leading_dots (fuel : nat) (p : string) (filenameIndex dotIndex : Z)
  : bool :=
  match fuel with
  | O => false
  | S fuel' =>
      if filenameIndex <? dotIndex then
        if negb (String.eqb (slice1 (Z.to_nat filenameIndex) p) ".") then true
        else skip_leading_dots fuel' p (filenameIndex + 1) dotIndex
      else false
  end.

(** [os.path.splitext(p)] with the separator [/]. *)
Definition splitext (p : string) : string * string :=
  let sepIndex := rfind "/" p in
  let dotIndex := rfind "." p in
  if (sepIndex <? dotIndex)
     && skip_leading_dots (Z.to_nat (dotIndex - sepIndex)) p (sepIndex + 1) dotIndex
  then (take (Z.to_nat dotIndex) p, Float.skip (Z.to_nat dotIndex) p)
  else (p, EmptyString).

End Path.

(** The path of the output file. *)
Definition txf_file_path (csv_file_path : string) : string :=
  (Path.splitext csv_file_path).1 ++ ".TXF".

(** What a file opened for reading in text mode gives for its stored
    characters: every line end, be it CR LF, CR or LF, reads as LF. *)
Fixpoint universal_newlines (s : string) : string :=
  match s with
  | EmptyString => EmptyString
  | String c r =>
      if Ascii.eqb c "013" then
        String "010"
          match r with
          | String c' r' =>
              if Ascii.eqb c' "010" then universal_newlines r'
              else universal_newlines r
          | EmptyString => EmptyString
          end
      else String c (universal_newlines r)
  end.

(** A text with every LF written as CR LF. *)
Fixpoint to_crlf (s : string) : string :=
  match s with
  | EmptyString => EmptyString
  | String c r =>
      if Ascii.eqb c "010" then String "013" (String "010" (to_crlf r))
      else String c (to_crlf r)
  end.

(** The exceptions that leave [convert_schwab_csv_to_txf] called on a
    path: the input file does not exist, or the conversion of its text
    raises. *)
Inductive failure :=
| FileNotFoundError
| Raised (e : exn).

(** [convert_schwab_csv_to_txf(csv_file_path)] on a file system, a
    map from paths to the stored characters of the files: the text of
    the input file is read whole, then the output file is created or
    truncated and written, provided the header row is found.  The
    result is the path of the output file, with the file system and the
    standard output that the call leaves.  Every path can be opened for
    writing. *)
Definition convert_path (files : gmap string string) (csv_file_path : string)
  : gmap string string * list message * (failure + string) :=
  match files !! csv_file_path with
  | None => (files, [], inl FileNotFoundError)
  | Some stored =>
      let '(st, r) :=
        run (files !! txf_file_path csv_file_path) (universal_newlines stored) in
      (match txf_file st with
       | Some written => <[txf_file_path csv_file_path := written]> files
       | None => files
       end,
       stdout st,
       match r with
       | Return _ => inr (txf_file_path csv_file_path)
       | Raise e => inl (Raised e)
       end)
  end.

(** What the program prints: the lines of the conversion and of the
    main block, and the report of an unexpected exception, which
    carries the exception. *)
Inductive console :=
| Out (msg : message)
| UnexpectedError (e : exn).

(** The main block, on the argument vector and the file system: the
    file system it leaves, what it prints and its exit status. *)
Definition main (argv : list string) (files : gmap string string)
  : gmap string string * list console * Z :=
  match argv with
  | [_; csv_file_path] =>
      let '(files', printed, r) := convert_path files csv_file_path in
      (files',
       (map Out printed
        ++ [match r with
            | inr txf =>
                Out (Line ("Conversion complete. TXF file saved as " ++ txf))
            | inl FileNotFoundError =>
                Out (Line ("Error: Input file " ++ csv_file_path
                           ++ " not found."))
            | inl (Raised (ValueError e)) => Out (Line ("Error: " ++ e))
            | inl (Raised e) => UnexpectedError e
            end])%list,
       0%Z)
  | _ => (files, [Out (Line "Usage: python script.py <input_csv_file>")], 1%Z)
  end.

(** A character that is no carriage return. *)
Definition not_cr (c : ascii) : bool := negb (Ascii.eqb c "013").

(** A string without a given character. *)
Definition has_no (c : ascii) (s : string) : bool :=
  all_chars (fun a => negb (Ascii.eqb a c)) s.

(** A string of dots only. *)
Definition only_dots (s : string) : bool :=
  all_chars (fun a => Ascii.eqb a ".") s.

(** ** Facts about characters, digits and stripping *)

Section StringFacts.

Local Open Scope Z_scope.

Lemma all_chars_app P s t :
  all_chars P (s ++ t) = all_chars P s && all_chars P t.
Proof.
  induction s as [|c s IH]; simpl; [reflexivity|].
  rewrite IH. apply andb_assoc.
Qed.

Lemma all_chars_impl (P Q : ascii -> bool) s :
  (forall c, P c = true -> Q c = true) ->
  all_chars P s = true -> all_chars Q s = true.
Proof.
  intros HPQ. induction s as [|c s IH]; simpl; [reflexivity|].
  intros [Hc Hs]%andb_prop. rewrite (HPQ _ Hc), (IH Hs). reflexivity.
Qed.

Lemma append_nil_r (s : string) : s ++ "" = s.
Proof. induction s; simpl; congruence. Qed.

Lemma append_assoc (s t u : string) : (s ++ t) ++ u = s ++ t ++ u.
Proof. induction s; simpl; congruence. Qed.

Lemma mod10_cases n :
  n mod 10 = 0 \/ n mod 10 = 1 \/ n mod 10 = 2 \/ n mod 10 = 3 \/ n mod 10 = 4 \/
  n mod 10 = 5 \/ n mod 10 = 6 \/ n mod 10 = 7 \/ n mod 10 = 8 \/ n mod 10 = 9.
Proof. pose proof (Z.mod_pos_bound n 10). lia. Qed.

Ltac by_digit n :=
  unfold Date.digit_char;
  destruct (mod10_cases n) as [H|[H|[H|[H|[H|[H|[H|[H|[H|H]]]]]]]]];
  rewrite H; reflexivity.

Lemma digit_char_is_digit n : Str.is_digit (Date.digit_char n) = true.
Proof. by_digit n. Qed.

Lemma digit_digit_char n : Date.digit (Date.digit_char n) = n mod 10.
Proof.
  unfold Date.digit_char;
  destruct (mod10_cases n) as [H|[H|[H|[H|[H|[H|[H|[H|[H|H]]]]]]]]];
  rewrite H; reflexivity.
Qed.

Ltac bool_to_prop :=
  repeat match goal with
         | H : (_ && _)%bool = true |- _ => apply andb_prop in H; destruct H
         | H : (_ || _)%bool = true |- _ => apply orb_prop in H; destruct H
         | H : (_ <=? _)%N = true |- _ => apply N.leb_le in H
         | H : (_ =? _)%N = true |- _ => apply N.eqb_eq in H
         end.

Lemma is_digit_plain c : Str.is_digit c = true -> plain c = true.
Proof. unfold plain. intros ->. reflexivity. Qed.

Lemma eqb_N_of_ascii c d :
  Ascii.eqb c d = (N_of_ascii c =? N_of_ascii d)%N.
Proof.
  destruct (Ascii.eqb_spec c d) as [->|Hne].
  - symmetry. apply N.eqb_refl.
  - symmetry. apply N.eqb_neq. intros Heq. apply Hne.
    rewrite <- (ascii_N_embedding c), <- (ascii_N_embedding d). congruence.
Qed.

Lemma plain_not_space c : plain c = true -> Float.py_isspace c = false.
Proof.
  unfold plain, Float.py_isspace, Str.is_digit. rewrite !eqb_N_of_ascii.
  change (N_of_ascii "-") with 45%N. change (N_of_ascii ".") with 46%N.
  intros H. apply not_true_is_false. intros H'. bool_to_prop; lia.
Qed.

Lemma plain_not_underscore c : plain c = true -> Ascii.eqb c "_" = false.
Proof.
  unfold plain, Str.is_digit. rewrite !eqb_N_of_ascii.
  change (N_of_ascii "-") with 45%N. change (N_of_ascii ".") with 46%N.
  change (N_of_ascii "_") with 95%N.
  intros H. apply not_true_is_false. intros H'. bool_to_prop; lia.
Qed.

Lemma lstrip_by_id space s :
  all_chars (fun c => negb (space c)) s = true -> Str.lstrip_by space s = s.
Proof.
  destruct s as [|c s]; simpl; [reflexivity|].
  intros [Hc _]%andb_prop. apply negb_true_iff in Hc. rewrite Hc. reflexivity.
Qed.

Lemma rstrip_by_id space s :
  all_chars (fun c => negb (space c)) s = true -> Str.rstrip_by space s = s.
Proof.
  induction s as [|c s IH]; simpl; [reflexivity|].
  intros [Hc Hs]%andb_prop. apply negb_true_iff in Hc.
  rewrite Hc, (IH Hs). reflexivity.
Qed.

Lemma strip_by_id space s :
  all_chars (fun c => negb (space c)) s = true -> Str.strip_by space s = s.
Proof.
  intros H. unfold Str.strip_by. rewrite (lstrip_by_id _ _ H).
  apply rstrip_by_id, H.
Qed.

Lemma remove_underscores_id s : forall prev,
  Ascii.eqb prev "_" = false ->
  all_chars (fun c => negb (Ascii.eqb c "_")) s = true ->
  Float.remove_underscores prev s = Some s.
Proof.
  induction s as [|c s IH]; simpl; intros prev Hp.
  - rewrite Hp. reflexivity.
  - intros [Hc Hs]%andb_prop. apply negb_true_iff in Hc.
    rewrite Hc, Hp. simpl. rewrite (IH c Hc Hs). reflexivity.
Qed.

Lemma plain_strip s :
  all_chars plain s = true -> Str.strip_by Float.py_isspace s = s.
Proof.
  intros H. apply strip_by_id. revert H. apply all_chars_impl.
  intros c Hc. rewrite (plain_not_space _ Hc). reflexivity.
Qed.

Lemma plain_remove_underscores s :
  all_chars plain s = true -> Float.remove_underscores "000" s = Some s.
Proof.
  intros H. apply remove_underscores_id; [reflexivity|].
  revert H. apply all_chars_impl.
  intros c Hc. rewrite (plain_not_underscore _ Hc). reflexivity.
Qed.

Lemma is_digit_not_sign c :
  Str.is_digit c = true -> Ascii.eqb c "-" = false /\ Ascii.eqb c "+" = false.
Proof.
  unfold Str.is_digit. rewrite !eqb_N_of_ascii.
  change (N_of_ascii "-") with 45%N. change (N_of_ascii "+") with 43%N.
  intros H. split; apply not_true_is_false; intros H'; bool_to_prop; lia.
Qed.

Lemma take_digits_app d rest :
  all_chars Str.is_digit d = true ->
  (forall c r, rest = String c r -> Str.is_digit c = false) ->
  Float.take_digits (d ++ rest) = (d, rest).
Proof.
  intros Hd Hrest. induction d as [|c d IH]; simpl.
  - destruct rest as [|c r]; [reflexivity|]. simpl.
    rewrite (Hrest c r eq_refl). reflexivity.
  - simpl in Hd. apply andb_prop in Hd as [Hc Hd].
    rewrite Hc, (IH Hd). reflexivity.
Qed.

Lemma take_digits_all d :
  all_chars Str.is_digit d = true -> Float.take_digits d = (d, "").
Proof.
  intros Hd. rewrite <- (append_nil_r d) at 1.
  apply take_digits_app; [assumption | discriminate].
Qed.

Lemma dec_digits_app f : forall n acc,
  Float.dec_digits f n acc = Float.dec_digits f n "" ++ acc.
Proof.
  induction f as [|f IH]; intros n acc; simpl; [reflexivity|].
  destruct (n / 10 =? 0); [reflexivity|].
  rewrite IH, (IH _ (String _ "")), append_assoc. reflexivity.
Qed.

Lemma dec_digits_all_digits f : forall n acc,
  all_chars Str.is_digit (Float.dec_digits f n acc) = all_chars Str.is_digit acc.
Proof.
  induction f as [|f IH]; intros n acc; simpl.
  - rewrite digit_char_is_digit. reflexivity.
  - destruct (n / 10 =? 0); simpl.
    + rewrite digit_char_is_digit. reflexivity.
    + rewrite IH. simpl. rewrite digit_char_is_digit. reflexivity.
Qed.

Lemma dec_all_digits n : all_chars Str.is_digit (Float.dec n) = true.
Proof. unfold Float.dec. rewrite dec_digits_all_digits. reflexivity. Qed.

Lemma dec_digits_nonempty f : forall n acc,
  Str.is_empty (Float.dec_digits f n acc) = false.
Proof.
  induction f as [|f IH]; intros n acc; simpl; [reflexivity|].
  destruct (n / 10 =? 0); [reflexivity | apply IH].
Qed.

Lemma dec_nonempty n : Str.is_empty (Float.dec n) = false.
Proof. apply dec_digits_nonempty. Qed.

Lemma digits_value_dec_digits f : forall n acc,
  0 <= n -> n < 2 ^ (Z.of_nat f + 1) ->
  Float.digits_value 0 (Float.dec_digits f n acc) = Float.digits_value n acc.
Proof.
  induction f as [|f IH]; intros n acc Hn Hlt.
  - change (2 ^ (Z.of_nat 0 + 1)) with 2 in Hlt. simpl.
    rewrite digit_digit_char. f_equal. rewrite Z.mod_small; lia.
  - simpl Float.dec_digits. destruct (Z.eqb_spec (n / 10) 0) as [H0|Hne].
    + simpl. rewrite digit_digit_char. f_equal.
      assert (n < 10) by (apply Z.div_small_iff in H0; lia).
      rewrite Z.mod_small; lia.
    + rewrite IH.
      * simpl. rewrite digit_digit_char. f_equal.
        pose proof (Z.div_mod n 10). lia.
      * apply Z.div_pos; lia.
      * replace (Z.of_nat (S f) + 1) with (Z.succ (Z.of_nat f + 1)) in Hlt by lia.
        rewrite Z.pow_succ_r in Hlt by lia.
        apply Z.div_lt_upper_bound; lia.
Qed.

Lemma digits_value_dec n acc :
  0 <= n ->
  Float.digits_value 0 (Float.dec n ++ acc) = Float.digits_value n acc.
Proof.
  intros Hn. unfold Float.dec. rewrite <- dec_digits_app.
  apply digits_value_dec_digits; [assumption|].
  destruct (Z.eq_dec n 0) as [->|Hne]; [reflexivity|].
  rewrite Z2Nat.id by apply Z.log2_nonneg.
  apply Z.log2_spec. lia.
Qed.

Lemma two_digits_all_digits b : all_chars Str.is_digit (Date.two_digits b) = true.
Proof.
  unfold Date.two_digits. simpl. rewrite !digit_char_is_digit. reflexivity.
Qed.

Lemma digits_value_two_digits a b :
  0 <= b < 100 ->
  Float.digits_value a (Date.two_digits b) = a * 100 + b.
Proof.
  intros Hb. unfold Date.two_digits. simpl. rewrite !digit_digit_char.
  assert (0 <= b / 10 < 10)
    by (split; [apply Z.div_pos | apply Z.div_lt_upper_bound]; lia).
  rewrite (Z.mod_small (b / 10)) by lia.
  pose proof (Z.div_mod b 10). lia.
Qed.

Lemma strtod_printed neg a b :
  0 <= a -> 0 <= b < 100 ->
  Float.strtod (printed neg a b)
  = Some (Float.of_decimal neg (a * 100 + b) (- 2), "").
Proof.
  intros Ha Hb. unfold Float.strtod, printed.
  assert (Hsign : Float.take_sign
            (Float.sign_string neg ++ Float.dec a ++ "." ++ Date.two_digits b)
          = (neg, Float.dec a ++ "." ++ Date.two_digits b)).
  { destruct neg; [reflexivity|]. simpl.
    pose proof (dec_all_digits a) as Hall. pose proof (dec_nonempty a) as Hne.
    destruct (Float.dec a) as [|c r]; [discriminate|]. simpl.
    simpl in Hall. apply andb_prop in Hall as [Hc _].
    destruct (is_digit_not_sign c Hc) as [-> ->]. reflexivity. }
  rewrite Hsign.
  rewrite (take_digits_app (Float.dec a) ("." ++ Date.two_digits b)
             (dec_all_digits a)) by (intros c r [= <- _]; reflexivity).
  change ("." ++ Date.two_digits b) with (String "." (Date.two_digits b)).
  cbv iota. change (Ascii.eqb "." ".") with true. cbv iota.
  rewrite (take_digits_all _ (two_digits_all_digits b)).
  rewrite dec_nonempty. simpl andb. cbv iota.
  change (Float.take_exponent "") with (0, ""). cbv iota.
  rewrite digits_value_dec by assumption.
  rewrite digits_value_two_digits by assumption.
  reflexivity.
Qed.

Lemma printed_plain neg a b : all_chars plain (printed neg a b) = true.
Proof.
  unfold printed. rewrite !all_chars_app.
  rewrite (all_chars_impl _ _ _ is_digit_plain (dec_all_digits a)).
  rewrite (all_chars_impl _ _ _ is_digit_plain (two_digits_all_digits b)).
  destruct neg; reflexivity.
Qed.

Lemma of_string_printed neg a b :
  0 <= a -> 0 <= b < 100 ->
  Float.of_string (printed neg a b)
  = Some (Float.of_decimal neg (a * 100 + b) (- 2)).
Proof.
  intros Ha Hb. unfold Float.of_string.
  rewrite (plain_strip _ (printed_plain neg a b)).
  rewrite (plain_remove_underscores _ (printed_plain neg a b)).
  rewrite (strtod_printed neg a b Ha Hb). reflexivity.
Qed.

End StringFacts.

(** ** Facts about rounding *)

Section RoundingFacts.

Local Open Scope Z_scope.

Lemma rne_div_ge n d : n / d <= Float.rne_div n d.
Proof.
  unfold Float.rne_div.
  destruct (2 * (n mod d) ?= d); [destruct (Z.even (n / d))| |]; lia.
Qed.

Lemma rne_div_nonneg n d : 0 <= n -> 0 < d -> 0 <= Float.rne_div n d.
Proof.
  intros Hn Hd. pose proof (rne_div_ge n d).
  pose proof (Z.div_pos n d Hn Hd). lia.
Qed.

Lemma centis_nonneg m e : 0 <= Float.centis m e.
Proof.
  unfold Float.centis. destruct (0 <=? e) eqn:He.
  - apply Z.leb_le in He. pose proof (Z.pow_pos_nonneg 2 e). lia.
  - apply Z.leb_gt in He. apply rne_div_nonneg; [lia|].
    apply Z.pow_pos_nonneg; lia.
Qed.

(** At the exponent read off the binary logarithms the quotient has at
    least 53 bits. *)
Lemma scaled_lower p q n d :
  0 < p -> 0 < q ->
  Float.scaled p q (Z.log2 p - Z.log2 q - Float.prec) = (n, d) ->
  0 < d /\ 2 ^ 52 * d <= n.
Proof.
  intros Hp Hq. unfold Float.scaled, Float.prec.
  pose proof (Z.log2_spec p Hp) as [Hp1 Hp2].
  pose proof (Z.log2_spec q Hq) as [Hq1 Hq2].
  pose proof (Z.log2_nonneg p) as Hlp. pose proof (Z.log2_nonneg q) as Hlq.
  set (lp := Z.log2 p) in *. set (lq := Z.log2 q) in *.
  destruct (0 <=? lp - lq - 53) eqn:He; intros [= <- <-].
  - apply Z.leb_le in He.
    assert (Hpow : 2 ^ lp = 2 ^ Z.succ lq * 2 ^ (lp - lq - 53) * 2 ^ 52).
    { rewrite <- !Z.pow_add_r by lia. f_equal. lia. }
    pose proof (Z.pow_pos_nonneg 2 (lp - lq - 53)) as Hpos.
    split; [nia|]. nia.
  - apply Z.leb_gt in He.
    assert (Hpow : 2 ^ lp * 2 ^ (- (lp - lq - 53)) = 2 ^ Z.succ lq * 2 ^ 52).
    { rewrite <- !Z.pow_add_r by lia. f_equal. lia. }
    pose proof (Z.pow_pos_nonneg 2 (- (lp - lq - 53))) as Hpos.
    split; [lia|]. nia.
Qed.

(** One more binary place halves the scaled quotient. *)
Lemma scaled_succ p q e n0 d0 n1 d1 :
  0 < p -> 0 < q ->
  Float.scaled p q e = (n0, d0) ->
  Float.scaled p q (e + 1) = (n1, d1) ->
  2 ^ 53 <= n0 / d0 ->
  0 < d1 /\ 2 ^ 52 * d1 <= n1.
Proof.
  intros Hp Hq. unfold Float.scaled.
  destruct (0 <=? e) eqn:He; intros [= <- <-].
  - apply Z.leb_le in He.
    replace (0 <=? e + 1) with true by (symmetry; apply Z.leb_le; lia).
    intros [= <- <-] Hdiv.
    pose proof (Z.pow_pos_nonneg 2 e) as Hpos.
    rewrite Z.pow_add_r by lia. change (2 ^ 1) with 2.
    assert (Hd : 0 < q * 2 ^ e) by nia.
    pose proof (Z.mul_div_le p _ Hd). split; nia.
  - apply Z.leb_gt in He. intros Hs Hdiv.
    pose proof (Z.mul_div_le (p * 2 ^ (- e)) q Hq) as Hle.
    destruct (0 <=? e + 1) eqn:He1.
    + apply Z.leb_le in He1. assert (e = -1) by lia. subst e.
      injection Hs as <- <-. change (2 ^ (-1 + 1)) with 1.
      change (2 ^ (- -1)) with 2 in *. split; nia.
    + apply Z.leb_gt in He1. injection Hs as <- <-.
      replace (- e) with (- (e + 1) + 1) in * by lia.
      rewrite Z.pow_add_r in * by lia. change (2 ^ 1) with 2 in *.
      split; [lia | nia].
Qed.

(** A positive ratio well above the subnormal range does not round to
    zero. *)
Lemma of_ratio_not_zero neg p q :
  0 < p -> 0 < q -> -1021 <= Z.log2 p - Z.log2 q ->
  forall s, Float.of_ratio neg p q <> S754_zero s.
Proof.
  intros Hp Hq Hlog s. unfold Float.of_ratio.
  set (e0 := Z.log2 p - Z.log2 q - Float.prec).
  destruct (Float.scaled p q e0) as [n0 d0] eqn:Hs0.
  destruct (scaled_lower p q n0 d0 Hp Hq Hs0) as [Hd0 Hn0].
  set (e1 := if 2 ^ Float.prec <=? n0 / d0 then e0 + 1 else e0).
  assert (He1 : Z.max e1 (3 - Float.emax - Float.prec) = e1).
  { apply Z.max_l. unfold e1, e0, Float.emax, Float.prec.
    destruct (_ <=? _); lia. }
  rewrite He1.
  destruct (Float.scaled p q e1) as [n d] eqn:Hs1.
  assert (Hnd : 0 < d /\ 2 ^ 52 * d <= n).
  { unfold e1 in Hs1. destruct (2 ^ Float.prec <=? n0 / d0) eqn:Hbig.
    - apply Z.leb_le in Hbig.
      exact (scaled_succ p q e0 n0 d0 n d Hp Hq Hs0 Hs1 Hbig).
    - rewrite Hs0 in Hs1. injection Hs1 as <- <-. split; assumption. }
  destruct Hnd as [Hd Hn].
  assert (Hm : 2 ^ 52 <= Float.rne_div n d).
  { pose proof (rne_div_ge n d).
    pose proof (Z.div_le_lower_bound n d (2 ^ 52) Hd). lia. }
  destruct (Float.rne_div n d =? 2 ^ Float.prec).
  - change (2 ^ (Float.prec - 1)) with (Zpos (2 ^ 52)). cbv beta iota zeta.
    match goal with |- (if ?b then _ else _) <> _ => destruct b end; discriminate.
  - destruct (Float.rne_div n d) as [|mp|mp]; [lia| |lia]. cbv beta iota zeta.
    match goal with |- (if ?b then _ else _) <> _ => destruct b end; discriminate.
Qed.

Lemma ne_zero_not_zero (x : float) :
  (forall s, x <> S754_zero s) -> Float.ne x Float.zero = true.
Proof.
  intros H. destruct x as [s|s| |s m e]; try reflexivity.
  - destruct (H s eq_refl).
  - destruct s; reflexivity.
  - destruct s; reflexivity.
Qed.

Lemma ne_zero_of_hundredths neg c :
  0 <= c ->
  Float.ne (Float.of_decimal neg c (- 2)) Float.zero = negb (c =? 0).
Proof.
  intros Hc. unfold Float.of_decimal.
  destruct (Z.eqb_spec c 0) as [->|Hne]; [destruct neg; reflexivity|].
  change (0 <=? - 2) with false. cbv iota. change (10 ^ (- - 2)) with 100.
  apply ne_zero_not_zero, of_ratio_not_zero; [lia | lia |].
  change (Z.log2 100) with 6. pose proof (Z.log2_nonneg c). lia.
Qed.

Lemma format_2f_printed neg m e :
  Float.format_2f (S754_finite neg m e)
  = printed neg (Float.centis m e / 100) (Float.centis m e mod 100).
Proof. reflexivity. Qed.

Lemma of_string_format_2f x :
  Float.of_string (Float.format_2f x) = Some (reparse x).
Proof.
  destruct x as [s|s| |s m e]; try (destruct s; reflexivity); [reflexivity|].
  rewrite format_2f_printed. pose proof (centis_nonneg m e) as Hc.
  rewrite of_string_printed.
  - simpl. f_equal. f_equal. pose proof (Z.div_mod (Float.centis m e) 100). lia.
  - apply Z.div_pos; lia.
  - apply Z.mod_pos_bound. lia.
Qed.



End RoundingFacts.

(** ** The record writer and the row loop *)

Section ConverterFacts.

Local Open Scope Z_scope.

Lemma py_float_some s x : Float.of_string s = Some x -> py_float s = mret x.
Proof. unfold py_float. intros ->. reflexivity. Qed.

Lemma ne_zero_false (x : float) :
  Float.ne x Float.zero = false -> exists s, x = S754_zero s.
Proof.
  destruct x as [s|s| |s m e]; try (destruct s; discriminate); try discriminate.
  intros _. exists s. reflexivity.
Qed.

Lemma ne_zero_reparse (w : float) :
  Float.ne w Float.zero = true ->
  (if Float.ne (reparse w) Float.zero then Some (Float.format_2f w) else None)
  = wash_line w.
Proof.
  destruct w as [s|s| |s m e]; try (destruct s; discriminate || reflexivity);
    try reflexivity.
  intros _. unfold reparse, wash_line.
  rewrite (ne_zero_of_hundredths s _ (centis_nonneg m e)).
  destruct (Float.centis m e =? 0); reflexivity.
Qed.

(** The writer emits the block of the specification: the amounts are
    read back from their strings and printed by the [.2f] format, and
    the wash-sale line follows the printed amount. *)
Lemma write_txf_record_block desc da ds proceeds basis ws rt p b w st :
  Float.of_string proceeds = Some p ->
  Float.of_string basis = Some b ->
  (if Str.is_empty ws then Some Float.zero else Float.of_string ws) = Some w ->
  write_txf_record desc da ds proceeds basis
    (if Float.ne w Float.zero then ws else "") rt st
  = (st_write (unlines (record_lines rt desc da ds (Float.format_2f b)
                          (Float.format_2f p) (wash_line w))) st,
     Return tt).
Proof.
  intros Hp Hb Hw. unfold write_txf_record.
  rewrite (py_float_some _ _ Hp), (py_float_some _ _ Hb).
  destruct (Float.ne w Float.zero) eqn:Hne.
  - destruct (Str.is_empty ws) eqn:Hemp.
    { injection Hw as <-. discriminate. }
    rewrite (py_float_some _ _ Hw).
    unfold mbind, M_bind, mret, M_ret.
    rewrite (py_float_some _ _ (of_string_format_2f w)).
    unfold mret, M_ret. rewrite <- (ne_zero_reparse w Hne).
    destruct (Float.ne (reparse w) Float.zero);
      unfold write, modify, unlines, record_lines, Str.join, nl; simpl;
      repeat (rewrite append_assoc; simpl); reflexivity.
  - destruct (ne_zero_false w Hne) as [s ->].
    unfold mbind, M_bind, mret, M_ret.
    change (Str.is_empty "") with true. cbv iota.
    change (py_float "0.00") with (mret (M := M) Float.zero).
    unfold mret, M_ret.
    unfold write, modify, unlines, record_lines, Str.join, nl; simpl;
      repeat (rewrite append_assoc; simpl); reflexivity.
Qed.

Ltac run_monad :=
  cbv beta iota zeta delta
    [mbind M_bind mret M_ret method raise modify except_ValueError
     except_KeyError print cell].

Lemma process_row_normalize row st :
  process_row row st = apply_outcome row (normalize row) st.
Proof.
  unfold process_row, row_body, normalize, extract.
  generalize (get row "Description of property (Example 100 sh. XYZ Co.)" "").
  generalize (get row "Date acquired" "").
  generalize (get row "Date sold or disposed" "").
  generalize (get row "Proceeds" "0.00").
  generalize (get row "Cost or other basis" "0.00").
  generalize (get row "Wash sale loss disallowed" "0.00").
  generalize (get row "Form 8949 Code" "").
  intros vc vw vb vp vds vda vd.
  destruct vd as [d|]; [|reflexivity].
  destruct vda as [da|]; [|reflexivity].
  destruct vds as [ds|]; [|reflexivity].
  destruct vp as [p|]; [|reflexivity].
  destruct vb as [b|]; [|reflexivity].
  destruct vw as [w|]; [|reflexivity].
  destruct vc as [c|]; [|reflexivity].
  run_monad.
  unfold monetary, clean_amount, drop_dollar, py_float, reformat_date,
    resolve_date_acquired, record_type_of.
  cbn [f_description f_date_acquired f_date_sold f_proceeds f_basis f_wash
       f_form_8949_code].
  set (ps := Str.strip (Str.remove_commas p)).
  set (bs := Str.strip (Str.remove_commas b)).
  set (ws := if Str.startswith "$" (Str.strip (Str.remove_commas w))
             then Float.skip 1 (Str.strip (Str.remove_commas w))
             else Str.strip (Str.remove_commas w)).
  destruct (Float.of_string ps) as [pf|] eqn:Hp; [|reflexivity].
  destruct (Float.of_string bs) as [bf|] eqn:Hb; [|reflexivity].
  assert (Hblock : forall wf a1 a0 rt st0,
    (if Str.is_empty ws then Some Float.zero else Float.of_string ws) = Some wf ->
    write_txf_record (Str.strip d) a1 a0 ps bs
      (if Float.ne wf Float.zero then ws else "") rt st0
    = (st_write (unlines (record_lines rt (Str.strip d) a1 a0
                            (Float.format_2f bf) (Float.format_2f pf)
                            (wash_line wf))) st0, Return tt)).
  { intros wf a1 a0 rt st0 Hw. apply write_txf_record_block; assumption. }
  destruct (Str.is_empty ws) eqn:Hemp.
  - run_monad. cbv beta iota.
    destruct (Date.strptime (Str.strip ds)) as [sold|]; [|reflexivity].
    run_monad. cbv beta iota.
    destruct (Str.is_empty (Str.strip da)).
    { rewrite Hblock by reflexivity. reflexivity. }
    destruct (String.eqb (Str.lower (Str.strip da)) "various").
    { rewrite Hblock by reflexivity. reflexivity. }
    destruct (Date.strptime (Str.strip da)) as [acq|]; [|reflexivity].
    run_monad. cbv beta iota. rewrite Hblock by reflexivity. reflexivity.
  - destruct (Float.of_string ws) as [wf|] eqn:Hw; [|reflexivity].
    run_monad. cbv beta iota.
    destruct (Date.strptime (Str.strip ds)) as [sold|]; [|reflexivity].
    run_monad. cbv beta iota.
    destruct (Str.is_empty (Str.strip da)).
    { rewrite Hblock by reflexivity. reflexivity. }
    destruct (String.eqb (Str.lower (Str.strip da)) "various").
    { rewrite Hblock by reflexivity. reflexivity. }
    destruct (Date.strptime (Str.strip da)) as [acq|]; [|reflexivity].
    run_monad. cbv beta iota. rewrite Hblock by reflexivity. reflexivity.
Qed.

Lemma txf_file_count counted st : txf_file (count counted st) = txf_file st.
Proof. destruct counted; reflexivity. Qed.

(** The loop appends to the output file the blocks of the emitted
    transactions, in the order of the rows. *)
Lemma for_rows_txf rows csv_error : forall st content,
  txf_file st = Some content ->
  txf_file (for_rows rows csv_error st).1
  = Some (content ++ Str.join (map txf_block (emitted rows))).
Proof.
  induction rows as [|row rows IH]; intros st content Hst.
  - simpl. rewrite append_nil_r. destruct csv_error; exact Hst.
  - simpl for_rows. unfold mbind, M_bind. rewrite process_row_normalize.
    simpl emitted. destruct (normalize row) as [t|counted msg|e]; simpl.
    + erewrite IH; [|simpl; rewrite Hst; reflexivity].
      simpl. rewrite append_assoc. reflexivity.
    + erewrite IH; [reflexivity|]. simpl. rewrite txf_file_count. exact Hst.
    + rewrite append_nil_r. exact Hst.
Qed.

Lemma find_header_None lines : forall i,
  forallb (fun l => negb (Str.startswith header_text (Str.strip l))) lines = true ->
  find_header i lines = None.
Proof.
  induction lines as [|l lines IH]; intros i; cbn [find_header forallb].
  - reflexivity.
  - intros [Hl Hrest]%andb_prop. apply negb_true_iff in Hl. rewrite Hl.
    apply IH, Hrest.
Qed.

Lemma find_header_first lines : forall k i line,
  lines !! i = Some line ->
  Str.startswith header_text (Str.strip line) = true ->
  forallb (fun l => negb (Str.startswith header_text (Str.strip l)))
          (take i lines) = true ->
  find_header k lines = Some (k + i)%nat.
Proof.
  induction lines as [|l lines IH]; intros k i line Hi Hline Hfirst.
  - discriminate.
  - cbn [find_header]. destruct i as [|i].
    + injection Hi as ->. rewrite Hline. f_equal. lia.
    + cbn [take forallb] in Hfirst. apply andb_prop in Hfirst as [Hl Hrest].
      apply negb_true_iff in Hl. rewrite Hl.
      rewrite (IH (S k) i line Hi Hline Hrest). f_equal. lia.
Qed.

(** With the header found, the output file holds the header lines and
    then the blocks of the emitted transactions, whatever the output
    path held before. *)
Lemma run_txf_file existing text :
  find_header 0 (Str.readlines text) <> None ->
  txf_file (run existing text).1
  = Some (unlines header_lines ++ Str.join (map txf_block (emitted (rows_of text)))).
Proof.
  unfold run, convert_schwab_csv_to_txf, rows_of.
  destruct (find_header 0 (Str.readlines text)) as [i|]; [intros _|congruence].
  destruct (DictReader _) as [rows csv_error]. simpl fst.
  unfold mbind, M_bind, open_w, write_txf_header, write, modify.
  pose proof (for_rows_txf rows csv_error
                (st_write (unlines header_lines) (st_open_w (initial_state existing)))
                (unlines header_lines) eq_refl) as Hloop.
  change ("V042" ++ nl ++ "ACharles Schwab" ++ nl ++ "D02/23/2025" ++ nl ++ "^" ++ nl)
    with (unlines header_lines).
  destruct (for_rows rows csv_error _) as [st' [[]|e]]; exact Hloop.
Qed.

Lemma has_two_decimals_printed neg a b :
  has_two_decimals (printed neg a b) = true.
Proof.
  unfold has_two_decimals, printed.
  assert (Hs : match Float.sign_string neg ++ Float.dec a ++ "." ++ Date.two_digits b with
               | String c r =>
                   if Ascii.eqb c "-" then r
                   else Float.sign_string neg ++ Float.dec a ++ "." ++ Date.two_digits b
               | EmptyString =>
                   Float.sign_string neg ++ Float.dec a ++ "." ++ Date.two_digits b
               end = Float.dec a ++ "." ++ Date.two_digits b).
  { destruct neg; [reflexivity|]. simpl.
    pose proof (dec_all_digits a) as Hall. pose proof (dec_nonempty a) as Hne.
    destruct (Float.dec a) as [|c r]; [discriminate|]. simpl.
    simpl in Hall. apply andb_prop in Hall as [Hc _].
    destruct (is_digit_not_sign c Hc) as [-> _]. reflexivity. }
  rewrite Hs.
  rewrite (take_digits_app (Float.dec a) ("." ++ Date.two_digits b)
             (dec_all_digits a)) by (intros c r [= <- _]; reflexivity).
  rewrite dec_nonempty. unfold Date.two_digits. simpl.
  rewrite !digit_char_is_digit. reflexivity.
Qed.

(** Every finite amount is printed with exactly two decimals. *)
Lemma has_two_decimals_format_2f (x : float) :
  is_finite x = true -> has_two_decimals (Float.format_2f x) = true.
Proof.
  destruct x as [s|s| |s m e]; intros Hfin; try discriminate.
  - destruct s; reflexivity.
  - rewrite format_2f_printed. apply has_two_decimals_printed.
Qed.

End ConverterFacts.

(** ** Rows built by [DictReader] *)

Section RowFacts.

Lemma dict_zip_fold_absent (key : string) (kvs : list (string * string)) :
  forall d : gmap string value,
  (forall kv, In kv kvs -> kv.1 <> key) ->
  foldl (fun d kv => <[kv.1 := VStr kv.2]> d) d kvs !! key = d !! key.
Proof.
  induction kvs as [|kv kvs IH]; intros d Hkvs; simpl; [reflexivity|].
  rewrite IH by (intros kv' Hin; apply Hkvs; right; exact Hin).
  apply lookup_insert_ne. apply Hkvs. left. reflexivity.
Qed.

Lemma restval_fold_absent (key : string) (ks : list string) :
  forall d : gmap string value,
  ~ In key ks ->
  foldl (fun d k => <[k := VNone]> d) d ks !! key = d !! key.
Proof.
  induction ks as [|k ks IH]; intros d Hks; simpl; [reflexivity|].
  rewrite IH by (intros Hin; apply Hks; right; exact Hin).
  apply lookup_insert_ne. intros ->. apply Hks. left. reflexivity.
Qed.

Lemma In_zip_l (ks vs : list string) kv : In kv (zip ks vs) -> In kv.1 ks.
Proof.
  revert vs. induction ks as [|k ks IH]; intros [|v vs]; simpl; try tauto.
  intros [<-|Hin]; [left; reflexivity | right; exact (IH vs Hin)].
Qed.

Lemma In_drop {A} (n : nat) (l : list A) x : In x (drop n l) -> In x l.
Proof.
  revert l. induction n as [|n IH]; intros [|y l]; simpl; try tauto.
  intros Hin. right. exact (IH l Hin).
Qed.

(** A key that is no field name is absent from every row. *)
Lemma make_row_absent fieldnames cells key :
  ~ In key fieldnames -> make_row fieldnames cells !! key = None.
Proof.
  intros Hkey. unfold make_row, dict_zip.
  rewrite restval_fold_absent by (intros Hin; exact (Hkey (In_drop _ _ _ Hin))).
  rewrite dict_zip_fold_absent; [apply lookup_empty|].
  intros kv Hin <-. exact (Hkey (In_zip_l _ _ _ Hin)).
Qed.

(** The cells behind the cleaned fields of a row. *)
Lemma extract_inr row f :
  extract row = inr f ->
  exists d da ds p b w c,
    get row "Description of property (Example 100 sh. XYZ Co.)" "" = VStr d
    /\ get row "Date acquired" "" = VStr da
    /\ get row "Date sold or disposed" "" = VStr ds
    /\ get row "Proceeds" "0.00" = VStr p
    /\ get row "Cost or other basis" "0.00" = VStr b
    /\ get row "Wash sale loss disallowed" "0.00" = VStr w
    /\ get row "Form 8949 Code" "" = VStr c
    /\ f = {| f_description := Str.strip d;
              f_date_acquired := Str.strip da;
              f_date_sold := Str.strip ds;
              f_proceeds := clean_amount p;
              f_basis := clean_amount b;
              f_wash := drop_dollar (clean_amount w);
              f_form_8949_code := Str.upper (Str.strip c) |}.
Proof.
  unfold extract.
  destruct (get row "Description of property (Example 100 sh. XYZ Co.)" "")
    as [d|]; [|discriminate].
  destruct (get row "Date acquired" "") as [da|]; [|discriminate].
  destruct (get row "Date sold or disposed" "") as [ds|]; [|discriminate].
  destruct (get row "Proceeds" "0.00") as [p|]; [|discriminate].
  destruct (get row "Cost or other basis" "0.00") as [b|]; [|discriminate].
  destruct (get row "Wash sale loss disallowed" "0.00") as [w|]; [|discriminate].
  destruct (get row "Form 8949 Code" "") as [c|]; [|discriminate].
  intros [= <-]. exists d, da, ds, p, b, w, c. repeat split; reflexivity.
Qed.

End RowFacts.

(** ** The claims *)

Section Claims.

Local Open Scope Z_scope.

(** C1. With the header row found, the output file is the four header
    lines followed by exactly one record block for every successfully
    normalized transaction, in input order.  Each block is the lines TD,
    the record type, C1, L1, P and the description, D and the resolved
    date acquired, D and the normalized date sold, the dollar sign and
    the basis in the two-decimal format, the dollar sign and the
    proceeds in the two-decimal format, the wash-sale line when there is
    one, and the closing caret line. *)
Theorem C1_one_block_per_transaction_in_order
  (existing : option string) (text : string) (header_index : nat) :
  find_header 0 (Str.readlines text) = Some header_index ->
  txf_file (run existing text).1
  = Some (unlines header_lines
          ++ Str.join
               (map (fun t =>
                       unlines
                         (["TD"; t_record_type t; "C1"; "L1";
                           "P" ++ t_description t;
                           "D" ++ t_date_acquired t;
                           "D" ++ t_date_sold t;
                           "$" ++ Float.format_2f (t_basis t);
                           "$" ++ Float.format_2f (t_proceeds t)]
                          ++ match wash_line (t_wash t) with
                             | Some w => ["$" ++ w]
                             | None => []
                             end
                          ++ ["^"]))
                    (emitted (rows_of text)))).
Proof.
  intros Hfound. apply run_txf_file. rewrite Hfound. discriminate.
Qed.

Lemma C1_witness :
  find_header 0 (Str.readlines sample_text) = Some 4%nat
  /\ txf_file (run None sample_text).1
     = Some (unlines header_lines
             ++ unlines ["TD"; "N321"; "C1"; "L1"; "P100 sh. XYZ Co.";
                         "D01/01/2023"; "D02/01/2024"; "$1000.00";
                         "$1500.00"; "^"]
             ++ unlines ["TD"; "N713"; "C1"; "L1"; "P7 sh. DEF"; "DVARIOUS";
                         "D03/04/2024"; "$2000.50"; "$1500.00"; "$12.35";
                         "^"]).
Proof.
  split; [vm_compute; reflexivity|].
  rewrite (C1_one_block_per_transaction_in_order None sample_text 4%nat)
    by (vm_compute; reflexivity).
  vm_compute. reflexivity.
Defined.

(** C2. The record type is a function of the trimmed, uppercased Form
    8949 code alone: A gives N321, B gives N711, C gives N712, D gives
    N323, E gives N713, F gives N714, X gives N711 and every other code,
    the empty one included, gives N711.  Every row whose cells are
    read, whose amounts are numbers and whose dates pass validation
    ends normally, counted into the totals, with one block written
    that carries the record type of its trimmed, uppercased code cell;
    when that code is none of the seven, or the column is absent from
    the row, the block carries N711.  A row with a cell that the reader
    filled with [None] is the defect of C6. *)
Theorem C2_record_type_from_code :
  record_type_of "A" = "N321" /\ record_type_of "B" = "N711"
  /\ record_type_of "C" = "N712" /\ record_type_of "D" = "N323"
  /\ record_type_of "E" = "N713" /\ record_type_of "F" = "N714"
  /\ record_type_of "X" = "N711"
  /\ (forall code : string,
        ~ In code ["A"; "B"; "C"; "D"; "E"; "F"; "X"] ->
        record_type_of code = "N711")
  /\ (forall (row : gmap string value) (f : Fields) (p b w : float)
             (acquired sold : string) (st : state),
        extract row = inr f ->
        monetary f = Some (p, b, w) ->
        validated_dates f = Some (acquired, sold) ->
        exists raw : string,
          get row "Form 8949 Code" "" = VStr raw
          /\ f_form_8949_code f = Str.upper (Str.strip raw)
          /\ process_row row st
             = (st_write
                  (unlines (record_lines
                              (record_type_of (Str.upper (Str.strip raw)))
                              (f_description f) acquired sold
                              (Float.format_2f b) (Float.format_2f p)
                              (wash_line w)))
                  (st_add_totals p b w
                     (st_add_wash_adjusted (wash_adjusted p b w) st)),
                Return tt))
  /\ (forall (row : gmap string value) (f : Fields) (p b w : float)
             (acquired sold : string) (st : state),
        extract row = inr f ->
        monetary f = Some (p, b, w) ->
        validated_dates f = Some (acquired, sold) ->
        row !! "Form 8949 Code" = None
        \/ (exists raw : string,
              row !! "Form 8949 Code" = Some (VStr raw)
              /\ ~ In (Str.upper (Str.strip raw))
                      ["A"; "B"; "C"; "D"; "E"; "F"; "X"]) ->
        process_row row st
        = (st_write
             (unlines (record_lines "N711" (f_description f) acquired sold
                         (Float.format_2f b) (Float.format_2f p)
                         (wash_line w)))
             (st_add_totals p b w
                (st_add_wash_adjusted (wash_adjusted p b w) st)),
           Return tt)).
Proof.
  assert (Hother : forall code : string,
            ~ In code ["A"; "B"; "C"; "D"; "E"; "F"; "X"] ->
            record_type_of code = "N711").
  { intros code Hcode. unfold record_type_of, form_8949_to_record_type.
    rewrite !lookup_insert_ne, lookup_empty; [reflexivity|..];
      intros <-; apply Hcode; simpl; tauto. }
  assert (Hrow : forall (row : gmap string value) (f : Fields) (p b w : float)
                        (acquired sold : string) (st : state),
            extract row = inr f ->
            monetary f = Some (p, b, w) ->
            validated_dates f = Some (acquired, sold) ->
            exists raw : string,
              get row "Form 8949 Code" "" = VStr raw
              /\ f_form_8949_code f = Str.upper (Str.strip raw)
              /\ process_row row st
                 = (st_write
                      (unlines (record_lines
                                  (record_type_of (Str.upper (Str.strip raw)))
                                  (f_description f) acquired sold
                                  (Float.format_2f b) (Float.format_2f p)
                                  (wash_line w)))
                      (st_add_totals p b w
                         (st_add_wash_adjusted (wash_adjusted p b w) st)),
                    Return tt)).
  { intros row f p b w acquired sold st Hex Hmon Hdates.
    destruct (extract_inr row f Hex)
      as (d & da & ds & p' & b' & w' & c & _ & _ & _ & _ & _ & _ & Hc & Hf).
    assert (Hcode : f_form_8949_code f = Str.upper (Str.strip c))
      by (rewrite Hf; reflexivity).
    exists c. split; [exact Hc|]. split; [exact Hcode|].
    rewrite process_row_normalize. unfold normalize. rewrite Hex, Hmon.
    cbv beta iota zeta.
    unfold validated_dates in Hdates.
    destruct (Date.strptime (f_date_sold f)) as [s|]; [|discriminate].
    destruct (resolve_date_acquired _ _) as [a|]; [|discriminate].
    injection Hdates as <- <-. rewrite Hcode. reflexivity. }
  repeat (split; [reflexivity|]). split; [exact Hother|]. split; [exact Hrow|].
  intros row f p b w acquired sold st Hex Hmon Hdates Hmissing.
  destruct (Hrow row f p b w acquired sold st Hex Hmon Hdates)
    as (raw & Hget & _ & ->).
  assert (Htype : record_type_of (Str.upper (Str.strip raw)) = "N711").
  { unfold get in Hget.
    destruct Hmissing as [Habsent | (raw' & Hcell & Hnot)].
    - rewrite Habsent in Hget. injection Hget as <-. reflexivity.
    - rewrite Hcell in Hget. injection Hget as <-. apply Hother, Hnot. }
  rewrite Htype. reflexivity.
Qed.

(** The row of the sample with the code [e], and a row read under a
    header row without the code column. *)
Lemma C2_witness :
  (exists raw : string,
     get wash_row "Form 8949 Code" "" = VStr raw
     /\ f_form_8949_code wash_fields = Str.upper (Str.strip raw)
     /\ process_row wash_row (initial_state None)
        = (st_write
             (unlines (record_lines
                         (record_type_of (Str.upper (Str.strip raw)))
                         "7 sh. DEF" "VARIOUS" "03/04/2024"
                         (Float.format_2f (amount "2000.5"))
                         (Float.format_2f (amount "1500"))
                         (wash_line (amount "12.345"))))
             (st_add_totals (amount "1500") (amount "2000.5") (amount "12.345")
                (st_add_wash_adjusted
                   (wash_adjusted (amount "1500") (amount "2000.5")
                      (amount "12.345"))
                   (initial_state None))),
           Return tt))
  /\ process_row no_code_row (initial_state None)
     = (st_write
          (unlines (record_lines "N711" "100 sh. XYZ Co." "01/01/2023"
                      "02/01/2024"
                      (Float.format_2f (amount "1000.00"))
                      (Float.format_2f (amount "1500.00"))
                      (wash_line Float.zero)))
          (st_add_totals (amount "1500.00") (amount "1000.00") Float.zero
             (st_add_wash_adjusted
                (wash_adjusted (amount "1500.00") (amount "1000.00") Float.zero)
                (initial_state None))),
        Return tt).
Proof.
  pose proof C2_record_type_from_code
    as (_ & _ & _ & _ & _ & _ & _ & _ & Hrow & Hmissing).
  split.
  - apply (Hrow wash_row wash_fields (amount "1500") (amount "2000.5")
             (amount "12.345") "VARIOUS" "03/04/2024" (initial_state None));
      vm_compute; reflexivity.
  - apply (Hmissing no_code_row no_code_fields (amount "1500.00")
             (amount "1000.00") Float.zero "01/01/2023" "02/01/2024"
             (initial_state None));
      try (vm_compute; reflexivity).
    left. vm_compute. reflexivity.
Defined.

(** C3. When no line of the input, once trimmed, begins with the
    header text, the conversion raises its fatal error in the state in
    which it started: the output file is neither created nor written
    and nothing is printed, the totals included.  Otherwise the first
    such line is the one found, and its trimmed text is the header row
    handed to the reader, followed by the lines after it. *)
Theorem C3_missing_header_is_fatal (existing : option string) (text : string) :
  (forallb (fun l => negb (Str.startswith header_text (Str.strip l)))
           (Str.readlines text) = true ->
   run existing text
   = (initial_state existing,
      Raise (ValueError "No Form 1099-B header found in the CSV file"))
   /\ txf_file (run existing text).1 = existing
   /\ stdout (run existing text).1 = [])
  /\ (forall (i : nat) (line : string),
        Str.readlines text !! i = Some line ->
        Str.startswith header_text (Str.strip line) = true ->
        forallb (fun l => negb (Str.startswith header_text (Str.strip l)))
                (take i (Str.readlines text)) = true ->
        find_header 0 (Str.readlines text) = Some i
        /\ csv_content i (Str.readlines text)
           = Str.strip line ++ nl ++ Str.join (drop (S i) (Str.readlines text))).
Proof.
  split.
  - intros Hnone. apply (find_header_None _ 0%nat) in Hnone.
    assert (Hrun : run existing text
                   = (initial_state existing,
                      Raise (ValueError "No Form 1099-B header found in the CSV file"))).
    { unfold run, convert_schwab_csv_to_txf. rewrite Hnone. reflexivity. }
    rewrite Hrun. repeat split; reflexivity.
  - intros i line Hi Hline Hfirst. split.
    + exact (find_header_first _ 0%nat i line Hi Hline Hfirst).
    + unfold csv_content. rewrite Hi. reflexivity.
Qed.

Lemma C3_witness :
  (run (Some "old") ("Form 1099-B" ++ nl ++ "no table here" ++ nl)
   = (initial_state (Some "old"),
      Raise (ValueError "No Form 1099-B header found in the CSV file")))
  /\ find_header 0 (Str.readlines sample_text) = Some 4%nat.
Proof.
  split.
  - apply (C3_missing_header_is_fatal (Some "old")
             ("Form 1099-B" ++ nl ++ "no table here" ++ nl)).
    vm_compute. reflexivity.
  - apply (proj2 (C3_missing_header_is_fatal None sample_text) 4%nat
             (sample_header ++ nl));
      vm_compute; reflexivity.
Defined.

(** C4. For a row whose cells are read and whose date sold parses:
    when an amount is not a number the row is skipped; otherwise an
    empty trimmed date acquired is emitted as the normalized date sold;
    one that reads various in any case is emitted as VARIOUS; any other
    is parsed by the date format and emitted normalized, and when it
    does not parse the row is skipped with a diagnostic and nothing is
    written to the output file. *)
Theorem C4_date_acquired_resolution
  (row : gmap string value) (f : Fields) (sold : Date.date) (st : state) :
  extract row = inr f ->
  Date.strptime (f_date_sold f) = Some sold ->
  (exists raw, get row "Date acquired" "" = VStr raw
               /\ f_date_acquired f = Str.strip raw)
  /\ process_row row st
     = match monetary f with
       | None =>
           (st_print (ErrorProcessingRow row "Invalid monetary value in row") st,
            Return tt)
       | Some (p, b, w) =>
           let st1 := st_add_wash_adjusted (wash_adjusted p b w) st in
           let emit acquired :=
             (st_write
                (unlines (record_lines (record_type_of (f_form_8949_code f))
                            (f_description f) acquired (Date.strftime sold)
                            (Float.format_2f b) (Float.format_2f p)
                            (wash_line w)))
                (st_add_totals p b w st1),
              Return tt) in
           if Str.is_empty (f_date_acquired f) then emit (Date.strftime sold)
           else if String.eqb (Str.lower (f_date_acquired f)) "various"
           then emit "VARIOUS"
           else match Date.strptime (f_date_acquired f) with
                | Some acquired => emit (Date.strftime acquired)
                | None =>
                    (st_print
                       (ErrorProcessingRow row "Invalid Date acquired format")
                       st1,
                     Return tt)
                end
       end
  /\ (Str.is_empty (f_date_acquired f) = false ->
      String.eqb (Str.lower (f_date_acquired f)) "various" = false ->
      Date.strptime (f_date_acquired f) = None ->
      txf_file (process_row row st).1 = txf_file st
      /\ (process_row row st).2 = Return tt).
Proof.
  intros Hex Hsold.
  assert (Hrow : process_row row st
     = match monetary f with
       | None =>
           (st_print (ErrorProcessingRow row "Invalid monetary value in row") st,
            Return tt)
       | Some (p, b, w) =>
           let st1 := st_add_wash_adjusted (wash_adjusted p b w) st in
           let emit acquired :=
             (st_write
                (unlines (record_lines (record_type_of (f_form_8949_code f))
                            (f_description f) acquired (Date.strftime sold)
                            (Float.format_2f b) (Float.format_2f p)
                            (wash_line w)))
                (st_add_totals p b w st1),
              Return tt) in
           if Str.is_empty (f_date_acquired f) then emit (Date.strftime sold)
           else if String.eqb (Str.lower (f_date_acquired f)) "various"
           then emit "VARIOUS"
           else match Date.strptime (f_date_acquired f) with
                | Some acquired => emit (Date.strftime acquired)
                | None =>
                    (st_print
                       (ErrorProcessingRow row "Invalid Date acquired format")
                       st1,
                     Return tt)
                end
       end).
  { rewrite process_row_normalize. unfold normalize. rewrite Hex.
    destruct (monetary f) as [[[p b] w]|]; [|reflexivity].
    rewrite Hsold. unfold resolve_date_acquired. cbv zeta.
    destruct (Str.is_empty (f_date_acquired f)); [reflexivity|].
    destruct (String.eqb (Str.lower (f_date_acquired f)) "various");
      [reflexivity|].
    destruct (Date.strptime (f_date_acquired f)); reflexivity. }
  split; [|split].
  - destruct (extract_inr row f Hex)
      as (d & da & ds & p' & b' & w' & c & _ & Hda & _ & _ & _ & _ & _ & ->).
    exists da. split; [exact Hda | reflexivity].
  - exact Hrow.
  - intros Hemp Hvar Hbad. rewrite Hrow.
    destruct (monetary f) as [[[p b] w]|]; [|split; reflexivity].
    cbv zeta. rewrite Hemp, Hvar, Hbad. split; reflexivity.
Qed.

Lemma C4_witness :
  txf_file (process_row bad_acquired_row (initial_state (Some ""))).1 = Some ""
  /\ (process_row bad_acquired_row (initial_state (Some ""))).2 = Return tt.
Proof.
  apply (proj2 (proj2 (C4_date_acquired_resolution bad_acquired_row
           {| f_description := "5 sh. ABC"; f_date_acquired := "13/45/2024";
              f_date_sold := "02/01/2024"; f_proceeds := "10";
              f_basis := "20"; f_wash := ""; f_form_8949_code := "D" |}
           {| Date.year := 2024; Date.month := 2; Date.day := 1 |}
           (initial_state (Some ""))
           ltac:(vm_compute; reflexivity) ltac:(vm_compute; reflexivity))));
    vm_compute; reflexivity.
Defined.

(** C5, as amended.  For an emitted record whose wash value is a
    finite number: when the value written on two decimals is zero, in
    particular when the value is zero or the cell is empty, the record
    has no wash-sale line; when it is not, the record has a wash-sale
    line, the value in the two-decimal format, which has exactly two
    decimal places. *)
Theorem C5_wash_line_follows_rounded_amount
  (row : gmap string value) (f : Fields) (p b w : float)
  (acquired sold : string) (c : Z) (st : state) :
  extract row = inr f ->
  monetary f = Some (p, b, w) ->
  validated_dates f = Some (acquired, sold) ->
  hundredths w = Some c ->
  txf_file (process_row row st).1
  = Some (default "" (txf_file st)
          ++ unlines (record_lines (record_type_of (f_form_8949_code f))
                        (f_description f) acquired sold
                        (Float.format_2f b) (Float.format_2f p)
                        (if c =? 0 then None else Some (Float.format_2f w))))
  /\ (c <> 0 -> has_two_decimals (Float.format_2f w) = true)
  /\ (Float.ne w Float.zero = false -> c = 0).
Proof.
  intros Hex Hmoney Hdates Hc. split; [|split].
  - rewrite process_row_normalize. unfold normalize.
    rewrite Hex, Hmoney. unfold validated_dates in Hdates.
    destruct (Date.strptime (f_date_sold f)) as [s|]; [|discriminate].
    destruct (resolve_date_acquired _ _) as [a|]; [|discriminate].
    injection Hdates as -> <-. simpl. unfold txf_block. simpl.
    destruct w as [sg|sg| |sg m e]; try discriminate; injection Hc as <-;
      reflexivity.
  - intros _. apply has_two_decimals_format_2f.
    destruct w; try discriminate; reflexivity.
  - intros Hzero. destruct (ne_zero_false w Hzero) as [sg ->].
    injection Hc as <-. reflexivity.
Qed.

Lemma C5_witness :
  txf_file (process_row wash_row (initial_state (Some ""))).1
  = Some (unlines ["TD"; "N713"; "C1"; "L1"; "P7 sh. DEF"; "DVARIOUS";
                   "D03/04/2024"; "$2000.50"; "$1500.00"; "$12.35"; "^"]).
Proof.
  apply (proj1 (C5_wash_line_follows_rounded_amount wash_row
           {| f_description := "7 sh. DEF"; f_date_acquired := "Various";
              f_date_sold := "3/4/2024"; f_proceeds := "1500";
              f_basis := "2000.5"; f_wash := "12.345";
              f_form_8949_code := "E" |}
           (default Float.zero (Float.of_string "1500"))
           (default Float.zero (Float.of_string "2000.5"))
           (default Float.zero (Float.of_string "12.345"))
           "VARIOUS" "03/04/2024" 1235
           (initial_state (Some ""))
           ltac:(vm_compute; reflexivity) ltac:(vm_compute; reflexivity)
           ltac:(vm_compute; reflexivity) ltac:(vm_compute; reflexivity))).
Defined.

(** C5 as stated fails: a wash value of a tenth of a cent is not zero,
    yet the record has no wash-sale line. *)
Lemma C5_counterexample :
  (exists w, Float.of_string "0.001" = Some w /\ Float.ne w Float.zero = true)
  /\ run None small_wash_text
     = ({| total_proceeds := default Float.zero (Float.of_string "1500");
           total_basis := default Float.zero (Float.of_string "1000");
           total_wash := default Float.zero (Float.of_string "0.001");
           total_wash_adjusted_gain_loss :=
             default Float.zero (Float.of_string "500.001");
           txf_file :=
             Some (unlines (header_lines
                            ++ ["TD"; "N321"; "C1"; "L1"; "P100 sh. XYZ Co.";
                                "D01/01/2023"; "D02/01/2024"; "$1000.00";
                                "$1500.00"; "^"]));
           stdout :=
             [Line "Verify these totals with your Schwab 1099-B summary:";
              Line "Total Proceeds: $1500.00";
              Line "Total Basis: $1000.00";
              Line "Total Wash Sale Adjustments: $0.00";
              Line "Total Gain/Loss: $500.00";
              Line "Wash-Adjusted Total Gain/Loss: $500.00"] |},
        Return tt).
Proof.
  split.
  - eexists. split; vm_compute; reflexivity.
  - vm_compute. reflexivity.
Qed.

(** C6 fails on the code: a data line with fewer cells than the header
    gives a row whose missing cells are [None]; the first string method
    called on one raises an [AttributeError], which neither handler of
    the row loop catches.  The run stops there: the valid row that
    follows is not written and no totals are printed. *)
Theorem C6_short_row_crashes_the_run :
  make_row sample_fieldnames ["Total"] !! "Date acquired" = Some VNone
  /\ run None short_row_text
     = ({| total_proceeds := Float.zero; total_basis := Float.zero;
           total_wash := Float.zero;
           total_wash_adjusted_gain_loss := Float.zero;
           txf_file := Some (unlines header_lines);
           stdout := [] |},
        Raise (AttributeError "strip")).
Proof. split; vm_compute; reflexivity. Qed.

(** C7. For a row whose cells are read and whose amounts are numbers
    but whose date sold or date acquired fails validation, the
    wash-adjusted gain or loss, proceeds less basis less wash, is added
    to the wash-adjusted total, while the totals of proceeds, basis and
    wash and the output file stay as they were; the row is skipped with
    a diagnostic and the loop goes on. *)
Theorem C7_wash_adjusted_total_counts_rows_with_bad_dates
  (row : gmap string value) (f : Fields) (p b w : float) (st : state) :
  extract row = inr f ->
  monetary f = Some (p, b, w) ->
  validated_dates f = None ->
  total_wash_adjusted_gain_loss (process_row row st).1
  = Float.add (total_wash_adjusted_gain_loss st)
              (Float.sub p (Float.sub b w))
  /\ total_proceeds (process_row row st).1 = total_proceeds st
  /\ total_basis (process_row row st).1 = total_basis st
  /\ total_wash (process_row row st).1 = total_wash st
  /\ txf_file (process_row row st).1 = txf_file st
  /\ (exists msg, stdout (process_row row st).1
                  = (stdout st ++ [ErrorProcessingRow row msg])%list)
  /\ (process_row row st).2 = Return tt.
Proof.
  intros Hex Hmoney Hdates. rewrite process_row_normalize. unfold normalize.
  rewrite Hex, Hmoney. unfold validated_dates in Hdates.
  destruct (Date.strptime (f_date_sold f)) as [sold|].
  - destruct (resolve_date_acquired _ _) as [acquired|]; [discriminate|].
    repeat split. eexists. reflexivity.
  - repeat split. eexists. reflexivity.
Qed.

Lemma C7_witness :
  total_wash_adjusted_gain_loss
    (process_row bad_acquired_row (initial_state (Some ""))).1
  = Float.add Float.zero
      (Float.sub (default Float.zero (Float.of_string "10"))
         (Float.sub (default Float.zero (Float.of_string "20")) Float.zero)).
Proof.
  apply (proj1 (C7_wash_adjusted_total_counts_rows_with_bad_dates
           bad_acquired_row
           {| f_description := "5 sh. ABC"; f_date_acquired := "13/45/2024";
              f_date_sold := "02/01/2024"; f_proceeds := "10";
              f_basis := "20"; f_wash := ""; f_form_8949_code := "D" |}
           (default Float.zero (Float.of_string "10"))
           (default Float.zero (Float.of_string "20"))
           Float.zero
           (initial_state (Some ""))
           ltac:(vm_compute; reflexivity) ltac:(vm_compute; reflexivity)
           ltac:(vm_compute; reflexivity))).
Defined.

(** C8 fails on the code: the word inf passes the validation of
    monetary values, and the two-decimal format prints an infinity as
    inf, with no decimal places. *)
Theorem C8_infinite_proceeds_are_not_two_decimals :
  Float.of_string "inf" = Some (S754_infinity false)
  /\ has_two_decimals (Float.format_2f (S754_infinity false)) = false
  /\ txf_file (run None inf_proceeds_text).1
     = Some (unlines (header_lines
                      ++ ["TD"; "N321"; "C1"; "L1"; "P100 sh. XYZ Co.";
                          "D01/01/2023"; "D02/01/2024"; "$1000.00"; "$inf";
                          "^"]))
  /\ (run None inf_proceeds_text).2 = Return tt.
Proof. repeat split; vm_compute; reflexivity. Qed.

(** C9. A second run on the same input, started on what the first run
    left at the output path, leaves the output file byte for byte as
    the first run left it, and ends as the first run ended; the export
    date line is the same in both, being a constant of the program. *)
Theorem C9_second_run_is_identical (existing : option string) (text : string) :
  txf_file (run (txf_file (run existing text).1) text).1
  = txf_file (run existing text).1
  /\ (run (txf_file (run existing text).1) text).2 = (run existing text).2.
Proof.
  assert (Hany : forall e1 e2,
            find_header 0 (Str.readlines text) <> None ->
            run e1 text = run e2 text).
  { intros e1 e2. unfold run, convert_schwab_csv_to_txf.
    destruct (find_header 0 (Str.readlines text)); [intros _|congruence].
    destruct (DictReader _). reflexivity. }
  destruct (find_header 0 (Str.readlines text)) as [i|] eqn:Hfind.
  - rewrite (Hany (txf_file (run existing text).1) existing) by congruence.
    split; reflexivity.
  - assert (Hrun : forall e, run e text
              = (initial_state e,
                 Raise (ValueError "No Form 1099-B header found in the CSV file"))).
    { intros e. unfold run, convert_schwab_csv_to_txf. rewrite Hfind.
      reflexivity. }
    rewrite !Hrun. split; reflexivity.
Qed.

(** C10. A column that the header row does not name is absent from
    every row, so its cell reads as the default of the lookup: the
    empty string for the description, the dates and the code, and 0.00
    for the amounts.  No [KeyError] is raised and no missing-column
    diagnostic is printed.  With no proceeds column, a row that is
    otherwise valid is emitted with proceeds 0.00. *)
Theorem C10_absent_column_reads_as_default
  (fieldnames cells : list string) (st : state) :
  (forall key default : string,
     has_column key fieldnames = false ->
     get (make_row fieldnames cells) key default = VStr default)
  /\ (forall f : Fields,
        extract (make_row fieldnames cells) = inr f ->
        (has_column "Description of property (Example 100 sh. XYZ Co.)"
           fieldnames = false -> f_description f = "")
        /\ (has_column "Date acquired" fieldnames = false ->
            f_date_acquired f = "")
        /\ (has_column "Date sold or disposed" fieldnames = false ->
            f_date_sold f = "")
        /\ (has_column "Proceeds" fieldnames = false -> f_proceeds f = "0.00")
        /\ (has_column "Cost or other basis" fieldnames = false ->
            f_basis f = "0.00")
        /\ (has_column "Wash sale loss disallowed" fieldnames = false ->
            f_wash f = "0.00")
        /\ (has_column "Form 8949 Code" fieldnames = false ->
            f_form_8949_code f = ""))
  /\ (forall (row : gmap string value) (key : string),
        (process_row row st).2 <> Raise (KeyError key))
  /\ (forall row : gmap string value,
        stdout (process_row row st).1 = stdout st
        \/ exists msg, stdout (process_row row st).1
                       = (stdout st ++ [ErrorProcessingRow row msg])%list)
  /\ (forall (f : Fields) (b w : float) (acquired sold : string),
        has_column "Proceeds" fieldnames = false ->
        extract (make_row fieldnames cells) = inr f ->
        Float.of_string (f_basis f) = Some b ->
        (if Str.is_empty (f_wash f) then Some Float.zero
         else Float.of_string (f_wash f)) = Some w ->
        validated_dates f = Some (acquired, sold) ->
        txf_file (process_row (make_row fieldnames cells) st).1
        = Some (default "" (txf_file st)
                ++ unlines (record_lines
                              (record_type_of (f_form_8949_code f))
                              (f_description f) acquired sold
                              (Float.format_2f b) "0.00" (wash_line w)))).
Proof.
  assert (Hget : forall key default : string,
            has_column key fieldnames = false ->
            get (make_row fieldnames cells) key default = VStr default).
  { intros key dflt Hcol. unfold get. rewrite make_row_absent; [reflexivity|].
    intros Hin. unfold has_column in Hcol.
    assert (Hex : existsb (String.eqb key) fieldnames = true).
    { apply existsb_exists. exists key. split; [exact Hin|].
      apply String.eqb_refl. }
    congruence. }
  assert (Hdefaults : forall f : Fields,
        extract (make_row fieldnames cells) = inr f ->
        (has_column "Description of property (Example 100 sh. XYZ Co.)"
           fieldnames = false -> f_description f = "")
        /\ (has_column "Date acquired" fieldnames = false ->
            f_date_acquired f = "")
        /\ (has_column "Date sold or disposed" fieldnames = false ->
            f_date_sold f = "")
        /\ (has_column "Proceeds" fieldnames = false -> f_proceeds f = "0.00")
        /\ (has_column "Cost or other basis" fieldnames = false ->
            f_basis f = "0.00")
        /\ (has_column "Wash sale loss disallowed" fieldnames = false ->
            f_wash f = "0.00")
        /\ (has_column "Form 8949 Code" fieldnames = false ->
            f_form_8949_code f = "")).
  { intros f Hex.
    destruct (extract_inr _ f Hex)
      as (d & da & ds & p & b & w & c
          & Hd & Hda & Hds & Hp & Hb & Hw & Hc & ->).
    repeat split; intros Hcol.
    - rewrite (Hget _ _ Hcol) in Hd. injection Hd as <-. reflexivity.
    - rewrite (Hget _ _ Hcol) in Hda. injection Hda as <-. reflexivity.
    - rewrite (Hget _ _ Hcol) in Hds. injection Hds as <-. reflexivity.
    - rewrite (Hget _ _ Hcol) in Hp. injection Hp as <-. reflexivity.
    - rewrite (Hget _ _ Hcol) in Hb. injection Hb as <-. reflexivity.
    - rewrite (Hget _ _ Hcol) in Hw. injection Hw as <-. reflexivity.
    - rewrite (Hget _ _ Hcol) in Hc. injection Hc as <-. reflexivity. }
  split; [exact Hget|]. split; [exact Hdefaults|]. split; [|split].
  - intros row key. rewrite process_row_normalize.
    destruct (normalize row) as [t|counted msg|e] eqn:Hn; simpl;
      try discriminate.
    intros [= ->]. unfold normalize in Hn.
    destruct (extract row) as [e|f] eqn:Hex.
    + injection Hn as ->. unfold extract, cell in Hex.
      repeat match type of Hex with
             | match (match ?v with _ => _ end) with _ => _ end = _ =>
                 destruct v; try discriminate
             end.
    + destruct (monetary f) as [[[p b] w]|]; [|discriminate].
      destruct (Date.strptime _); [|discriminate].
      destruct (resolve_date_acquired _ _); discriminate.
  - intros row. rewrite process_row_normalize.
    destruct (normalize row) as [t|counted msg|e]; simpl.
    + left. reflexivity.
    + right. exists msg. destruct counted; reflexivity.
    + left. reflexivity.
  - intros f b w acquired sold Hcol Hex Hb Hw Hdates.
    pose proof (proj1 (proj2 (proj2 (proj2 (Hdefaults f Hex)))) Hcol) as Hp.
    rewrite process_row_normalize. unfold normalize. rewrite Hex.
    unfold monetary. rewrite Hp, Hb.
    change (Float.of_string "0.00") with (Some Float.zero).
    unfold validated_dates in Hdates.
    destruct (Str.is_empty (f_wash f)).
    + injection Hw as <-.
      destruct (Date.strptime (f_date_sold f)) as [s|]; [|discriminate].
      destruct (resolve_date_acquired _ _) as [a|]; [|discriminate].
      injection Hdates as -> <-. reflexivity.
    + rewrite Hw.
      destruct (Date.strptime (f_date_sold f)) as [s|]; [|discriminate].
      destruct (resolve_date_acquired _ _) as [a|]; [|discriminate].
      injection Hdates as -> <-. reflexivity.
Qed.

Lemma C10_witness :
  txf_file (process_row (make_row no_proceeds_fieldnames no_proceeds_cells)
              (initial_state (Some ""))).1
  = Some (unlines ["TD"; "N321"; "C1"; "L1"; "P100 sh. XYZ Co.";
                   "D01/01/2023"; "D02/01/2024"; "$1000.00"; "$0.00"; "^"]).
Proof.
  apply (proj2 (proj2 (proj2 (proj2
           (C10_absent_column_reads_as_default no_proceeds_fieldnames
              no_proceeds_cells (initial_state (Some ""))))))
           {| f_description := "100 sh. XYZ Co."; f_date_acquired := "01/01/2023";
              f_date_sold := "02/01/2024"; f_proceeds := "0.00";
              f_basis := "1000.00"; f_wash := ""; f_form_8949_code := "A" |}
           (default Float.zero (Float.of_string "1000"))
           Float.zero "01/01/2023" "02/01/2024"
           ltac:(vm_compute; reflexivity) ltac:(vm_compute; reflexivity)
           ltac:(vm_compute; reflexivity) ltac:(vm_compute; reflexivity)
           ltac:(vm_compute; reflexivity)).
Defined.

End Claims.

(** ** The run as a whole *)

Section RunFacts.

(** The loop as a fold over the outcomes of the rows. *)
Lemma for_rows_spec rows csv_error : forall st content,
  txf_file st = Some content ->
  for_rows rows csv_error st
  = ({| total_proceeds := sum_of t_proceeds (emitted rows) (total_proceeds st);
        total_basis := sum_of t_basis (emitted rows) (total_basis st);
        total_wash := sum_of t_wash (emitted rows) (total_wash st);
        total_wash_adjusted_gain_loss :=
          fold_left Float.add (counted_gains rows)
                    (total_wash_adjusted_gain_loss st);
        txf_file := Some (content ++ Str.join (map txf_block (emitted rows)));
        stdout := (stdout st ++ diagnostics rows)%list |},
     loop_result rows csv_error).
Proof.
  induction rows as [|row rows IH]; intros st content Hst.
  - simpl. rewrite append_nil_r, app_nil_r, <- Hst.
    destruct st; destruct csv_error; reflexivity.
  - cbn [for_rows emitted counted_gains diagnostics loop_result].
    unfold mbind, M_bind. rewrite process_row_normalize.
    destruct (normalize row) as [t|counted msg|e]; cbn [apply_outcome].
    + erewrite IH by (simpl; rewrite Hst; reflexivity).
      simpl. rewrite append_assoc. reflexivity.
    + erewrite IH by (simpl; rewrite txf_file_count; exact Hst).
      destruct counted as [g|]; simpl; rewrite <- app_assoc; reflexivity.
    + simpl. rewrite append_nil_r, app_nil_r, <- Hst.
      destruct st; reflexivity.
Qed.

(** A run in which the header row is found, as a function of its
    rows. *)
Lemma run_spec existing text header_index :
  find_header 0 (Str.readlines text) = Some header_index ->
  let rows := rows_of text in
  let result := loop_result rows (csv_error_of text) in
  let proceeds := sum_of t_proceeds (emitted rows) Float.zero in
  let basis := sum_of t_basis (emitted rows) Float.zero in
  let wash := sum_of t_wash (emitted rows) Float.zero in
  let gain := fold_left Float.add (counted_gains rows) Float.zero in
  run existing text
  = ({| total_proceeds := proceeds; total_basis := basis; total_wash := wash;
        total_wash_adjusted_gain_loss := gain;
        txf_file := Some (unlines header_lines
                          ++ Str.join (map txf_block (emitted rows)));
        stdout := (diagnostics rows
                   ++ match result with
                      | Return _ => totals_lines proceeds basis wash gain
                      | Raise _ => []
                      end)%list |},
     result).
Proof.
  intros Hfound. unfold rows_of, csv_error_of, run, convert_schwab_csv_to_txf.
  rewrite Hfound. destruct (DictReader _) as [rows csv_error]. cbn [fst snd].
  cbv zeta. unfold mbind, M_bind, open_w, write_txf_header, write, modify.
  change ("V042" ++ nl ++ "ACharles Schwab" ++ nl ++ "D02/23/2025" ++ nl ++ "^" ++ nl)
    with (unlines header_lines).
  rewrite (for_rows_spec rows csv_error
             (st_write (unlines header_lines) (st_open_w (initial_state existing)))
             (unlines header_lines) eq_refl).
  destruct (loop_result rows csv_error) as [[]|e]; [|rewrite app_nil_r; reflexivity].
  unfold print_totals, get_state, print, modify, mbind, M_bind, st_print,
    totals_lines.
  cbn [total_proceeds total_basis total_wash total_wash_adjusted_gain_loss
       txf_file stdout st_write st_open_w initial_state].
  rewrite <- !app_assoc. reflexivity.
Qed.

Lemma readlines_cons_nonempty c s : Str.readlines (String c s) <> [].
Proof.
  simpl. destruct (Ascii.eqb c "010"); [discriminate|].
  destruct (Str.readlines s); discriminate.
Qed.

Lemma readlines_app pre text :
  whole_lines pre = true ->
  Str.readlines (pre ++ text) = (Str.readlines pre ++ Str.readlines text)%list.
Proof.
  induction pre as [|c pre IH]; [reflexivity|].
  destruct pre as [|c' pre'].
  - simpl. intros ->. reflexivity.
  - intros Hwhole. change (whole_lines (String c' pre') = true) in Hwhole.
    specialize (IH Hwhole).
    pose proof (readlines_cons_nonempty c' pre') as Hne.
    change (String c (String c' pre') ++ text)
      with (String c (String c' pre' ++ text)).
    change (Str.readlines (String c (String c' pre' ++ text)))
      with (if Ascii.eqb c "010"
            then String c EmptyString :: Str.readlines (String c' pre' ++ text)
            else match Str.readlines (String c' pre' ++ text) with
                 | [] => [String c EmptyString]
                 | l :: ls => String c l :: ls
                 end).
    change (Str.readlines (String c (String c' pre')))
      with (if Ascii.eqb c "010"
            then String c EmptyString :: Str.readlines (String c' pre')
            else match Str.readlines (String c' pre') with
                 | [] => [String c EmptyString]
                 | l :: ls => String c l :: ls
                 end).
    rewrite IH.
    destruct (Ascii.eqb c "010"); [reflexivity|].
    destruct (Str.readlines (String c' pre')) as [|l ls]; [congruence|].
    reflexivity.
Qed.

Lemma find_header_shift lines : forall k,
  find_header k lines = (fun i => (k + i)%nat) <$> find_header 0 lines.
Proof.
  induction lines as [|l lines IH]; intros k; cbn [find_header]; [reflexivity|].
  destruct (Str.startswith header_text (Str.strip l)).
  - simpl. f_equal. lia.
  - rewrite (IH (S k)), (IH 1%nat).
    destruct (find_header 0 lines); simpl; [f_equal; lia | reflexivity].
Qed.

Lemma find_header_app pre lines : forall k,
  forallb not_header pre = true ->
  find_header k (pre ++ lines) = find_header (k + length pre) lines.
Proof.
  induction pre as [|l pre IH]; intros k Hpre.
  - simpl. f_equal. lia.
  - cbn [forallb] in Hpre. apply andb_prop in Hpre as [Hl Hpre].
    unfold not_header in Hl. apply negb_true_iff in Hl.
    cbn [app find_header]. rewrite Hl, (IH (S k) Hpre). f_equal. simpl. lia.
Qed.

Lemma csv_content_app pre lines i :
  csv_content (length pre + i) (pre ++ lines) = csv_content i lines.
Proof.
  unfold csv_content.
  rewrite lookup_app_r by lia.
  replace (length pre + i - length pre)%nat with i by lia.
  replace (S (length pre + i)) with (length pre + S i)%nat by lia.
  rewrite drop_app_add. reflexivity.
Qed.

Lemma restval_fold_present (key : string) (ks : list string) :
  forall d : gmap string value,
  In key ks ->
  foldl (fun d k => <[k := VNone]> d) d ks !! key = Some VNone.
Proof.
  induction ks as [|k ks IH]; intros d Hin; [destruct Hin|].
  cbn [foldl]. destruct (in_dec string_dec key ks) as [Hks|Hks].
  - apply IH, Hks.
  - destruct Hin as [->|Hin]; [|contradiction].
    rewrite restval_fold_absent by exact Hks. apply lookup_insert_eq.
Qed.

End RunFacts.

(** ** Facts about paths *)

Section PathFacts.

Local Open Scope Z_scope.

Lemma rfind_bounds c s : -1 <= Path.rfind c s < Z.of_nat (String.length s).
Proof.
  induction s as [|a r IH]; cbn [Path.rfind String.length]; cbv zeta.
  - lia.
  - destruct (0 <=? Path.rfind c r) eqn:E.
    + apply Z.leb_le in E. lia.
    + destruct (Ascii.eqb a c); lia.
Qed.

Lemma rfind_absent c s :
  all_chars (fun a => negb (Ascii.eqb a c)) s = true -> Path.rfind c s = -1.
Proof.
  induction s as [|a r IH]; cbn [Path.rfind all_chars]; [reflexivity|].
  intros [Ha Hr]%andb_prop. rewrite (IH Hr). cbv zeta.
  change (0 <=? -1) with false. cbv iota.
  apply negb_true_iff in Ha. rewrite Ha. reflexivity.
Qed.

Lemma rfind_app_absent c s t :
  all_chars (fun a => negb (Ascii.eqb a c)) t = true ->
  Path.rfind c (s ++ t) = Path.rfind c s.
Proof.
  intros Ht. induction s as [|a r IH]; cbn [String.append Path.rfind].
  - apply rfind_absent, Ht.
  - rewrite IH. reflexivity.
Qed.

Lemma rfind_app_found c s t :
  all_chars (fun a => negb (Ascii.eqb a c)) t = true ->
  Path.rfind c (s ++ String c t) = Z.of_nat (String.length s).
Proof.
  intros Ht. induction s as [|a r IH]; cbn [String.append Path.rfind String.length].
  - rewrite (rfind_absent _ _ Ht). cbv zeta. change (0 <=? -1) with false.
    rewrite Ascii.eqb_refl. reflexivity.
  - rewrite IH. cbv zeta.
    destruct (0 <=? Z.of_nat (String.length r)) eqn:E;
      [lia | apply Z.leb_gt in E; lia].
Qed.

Lemma path_take_app s t : Path.take (String.length s) (s ++ t) = s.
Proof.
  induction s as [|a r IH]; cbn [String.length String.append Path.take].
  - destruct t; reflexivity.
  - rewrite IH. reflexivity.
Qed.

Lemma float_skip_app s t : Float.skip (String.length s) (s ++ t) = t.
Proof.
  induction s as [|a r IH]; cbn [String.length String.append Float.skip].
  - destruct t; reflexivity.
  - exact IH.
Qed.

Lemma path_take_skip n : forall p, Path.take n p ++ Float.skip n p = p.
Proof.
  induction n as [|n IH]; intros [|a r]; cbn [Path.take Float.skip String.append];
    try reflexivity.
  rewrite IH. reflexivity.
Qed.

Lemma slice1_app s t : forall k,
  Path.slice1 (String.length s + k) (s ++ t) = Path.slice1 k t.
Proof.
  induction s as [|a r IH]; intros k;
    cbn [String.length String.append Path.slice1 Nat.add].
  - reflexivity.
  - apply IH.
Qed.

(** A string with a character that is no dot has an index that holds
    one. *)
Lemma not_all_dots s t :
  all_chars (fun a => Ascii.eqb a ".") s = false ->
  exists k, (k < String.length s)%nat
            /\ String.eqb (Path.slice1 k (s ++ t)) "." = false.
Proof.
  induction s as [|a r IH]; cbn [all_chars]; [discriminate|].
  destruct (Ascii.eqb a ".") eqn:Ea; cbn [andb].
  - intros [k [Hk Hs]]%IH. exists (S k). split; [cbn [String.length]; lia|].
    exact Hs.
  - intros _. exists 0%nat. split; [cbn [String.length]; lia|].
    cbn [String.append Path.slice1]. cbn [String.eqb]. rewrite Ea. reflexivity.
Qed.

Lemma skip_leading_dots_found p dotIndex (j : nat) :
  String.eqb (Path.slice1 j p) "." = false ->
  Z.of_nat j < dotIndex ->
  forall fuel filenameIndex,
    0 <= filenameIndex <= Z.of_nat j ->
    (Z.to_nat (dotIndex - filenameIndex) < fuel)%nat ->
    Path.skip_leading_dots fuel p filenameIndex dotIndex = true.
Proof.
  intros Hj Hlt. induction fuel as [|fuel IH]; intros i Hi Hfuel; [lia|].
  cbn [Path.skip_leading_dots].
  destruct (i <? dotIndex) eqn:E; [|apply Z.ltb_ge in E; lia].
  destruct (String.eqb (Path.slice1 (Z.to_nat i) p) ".") eqn:Ei; [|reflexivity].
  cbn [negb]. apply IH; [|lia].
  assert (Z.to_nat i <> j) by (intros Heq; rewrite Heq in Ei; congruence). lia.
Qed.

Lemma string_length_app (s t : string) :
  String.length (s ++ t) = (String.length s + String.length t)%nat.
Proof.
  induction s as [|a r IH]; cbn [String.append String.length Nat.add].
  - reflexivity.
  - rewrite IH. reflexivity.
Qed.

Lemma rfind_app_ge c s t :
  Z.of_nat (String.length s) <= Path.rfind c (s ++ String c t).
Proof.
  induction s as [|a r IH]; cbn [String.append Path.rfind String.length]; cbv zeta.
  - destruct (0 <=? Path.rfind c t) eqn:E.
    + apply Z.leb_le in E. lia.
    + rewrite Ascii.eqb_refl. lia.
  - destruct (0 <=? Path.rfind c (r ++ String c t)) eqn:E;
      [lia | apply Z.leb_gt in E; lia].
Qed.

Lemma splitext_extension dir name ext :
  has_no "/" name = true -> only_dots name = false ->
  has_no "/" ext = true -> has_no "." ext = true ->
  Path.splitext (dir ++ name ++ "." ++ ext) = (dir ++ name, "." ++ ext).
Proof.
  unfold has_no, only_dots. intros Hname Hdots Hext_sep Hext_dot.
  assert (Hsep : Path.rfind "/" (dir ++ name ++ "." ++ ext) = Path.rfind "/" dir).
  { apply rfind_app_absent. rewrite all_chars_app, Hname.
    cbn [String.append all_chars]. rewrite Hext_sep. reflexivity. }
  assert (Hdot : Path.rfind "." (dir ++ name ++ "." ++ ext)
                 = Z.of_nat (String.length (dir ++ name))).
  { rewrite <- append_assoc. apply rfind_app_found, Hext_dot. }
  destruct (not_all_dots name ("." ++ ext) Hdots) as [k [Hk Hslice]].
  pose proof (rfind_bounds "/" dir) as Hbound.
  unfold Path.splitext. rewrite Hsep, Hdot, string_length_app.
  replace (Path.rfind "/" dir <? Z.of_nat (String.length dir + String.length name))
    with true by (symmetry; apply Z.ltb_lt; lia).
  rewrite (skip_leading_dots_found _ _ (String.length dir + k)%nat).
  - cbn [andb]. rewrite Nat2Z.id, <- string_length_app, <- append_assoc.
    rewrite path_take_app, float_skip_app. reflexivity.
  - rewrite slice1_app. exact Hslice.
  - lia.
  - lia.
  - lia.
Qed.

Lemma splitext_no_dot name :
  has_no "." name = true ->
  Path.splitext name = (name, "")
  /\ forall dir, Path.splitext (dir ++ "/" ++ name) = (dir ++ "/" ++ name, "").
Proof.
  unfold has_no. intros Hname. split.
  - unfold Path.splitext. rewrite (rfind_absent "." name Hname).
    pose proof (rfind_bounds "/" name).
    replace (Path.rfind "/" name <? -1) with false
      by (symmetry; apply Z.ltb_ge; lia).
    reflexivity.
  - intros dir. unfold Path.splitext.
    assert (Hdot : Path.rfind "." (dir ++ "/" ++ name) = Path.rfind "." dir).
    { apply rfind_app_absent. cbn [String.append all_chars]. rewrite Hname. reflexivity. }
    pose proof (rfind_bounds "." dir).
    pose proof (rfind_app_ge "/" dir name) as Hge.
    rewrite Hdot.
    replace (Path.rfind "/" (dir ++ "/" ++ name) <? Path.rfind "." dir) with false
      by (symmetry; apply Z.ltb_ge; cbn [String.append]; lia).
    reflexivity.
Qed.

End PathFacts.

(** ** Facts about files *)

Section FileFacts.

Lemma universal_newlines_to_crlf text :
  all_chars not_cr text = true -> universal_newlines (to_crlf text) = text.
Proof.
  induction text as [|c r IH]; cbn [all_chars to_crlf]; [reflexivity|].
  intros [Hc Hr]%andb_prop. unfold not_cr in Hc. apply negb_true_iff in Hc.
  destruct (Ascii.eqb c "010") eqn:Elf.
  - apply Ascii.eqb_eq in Elf. subst c.
    cbn [universal_newlines]. rewrite Ascii.eqb_refl.
    change (Ascii.eqb "013" "013") with true. cbv iota.
    rewrite (IH Hr). reflexivity.
  - cbn [universal_newlines]. rewrite Hc, (IH Hr). reflexivity.
Qed.

Lemma universal_newlines_id text :
  all_chars not_cr text = true -> universal_newlines text = text.
Proof.
  induction text as [|c r IH]; cbn [all_chars universal_newlines]; [reflexivity|].
  intros [Hc Hr]%andb_prop. unfold not_cr in Hc. apply negb_true_iff in Hc.
  rewrite Hc, (IH Hr). reflexivity.
Qed.

Lemma run_raise_no_header existing text :
  find_header 0 (Str.readlines text) = None ->
  run existing text
  = (initial_state existing,
     Raise (ValueError "No Form 1099-B header found in the CSV file")).
Proof.
  intros Hnone. unfold run, convert_schwab_csv_to_txf. rewrite Hnone. reflexivity.
Qed.

(** The files after a conversion: only the output path can differ. *)
Lemma convert_path_other files p q :
  q <> txf_file_path p ->
  (convert_path files p).1.1 !! q = files !! q.
Proof.
  intros Hq. unfold convert_path.
  destruct (files !! p) as [stored|]; [|reflexivity].
  destruct (run _ _) as [st r]. cbn [fst].
  destruct (txf_file st); [|reflexivity].
  apply lookup_insert_ne. congruence.
Qed.

Lemma convert_path_found files p stored i :
  files !! p = Some stored ->
  find_header 0 (Str.readlines (universal_newlines stored)) = Some i ->
  (convert_path files p).1.1 !! txf_file_path p
  = Some (unlines header_lines
          ++ Str.join (map txf_block (emitted (rows_of (universal_newlines stored))))).
Proof.
  intros Hp Hi. unfold convert_path. rewrite Hp.
  pose proof (run_txf_file (files !! txf_file_path p) (universal_newlines stored)) as H.
  destruct (run _ _) as [st r]. cbn [fst] in *.
  rewrite H by congruence. apply lookup_insert_eq.
Qed.

Lemma convert_path_no_header files p stored :
  files !! p = Some stored ->
  find_header 0 (Str.readlines (universal_newlines stored)) = None ->
  convert_path files p
  = (files, [],
     inl (Raised (ValueError "No Form 1099-B header found in the CSV file"))).
Proof.
  intros Hp Hnone. unfold convert_path. rewrite Hp.
  rewrite (run_raise_no_header _ _ Hnone). cbn [initial_state txf_file stdout].
  destruct (files !! txf_file_path p) as [old|] eqn:Hold; [|reflexivity].
  rewrite (insert_id _ _ _ Hold). reflexivity.
Qed.

End FileFacts.

(** ** Further properties of the converter *)

Section Extras.

Local Open Scope Z_scope.

(** X1. An index returned by the search for the header row is within
    the lines, the line there starts, once trimmed, with the header
    text, and no line before it does. *)
Theorem X1_find_header_sound (lines : list string) (i : nat) :
  find_header 0 lines = Some i ->
  (i < length lines)%nat
  /\ (exists line, lines !! i = Some line
                   /\ Str.startswith header_text (Str.strip line) = true)
  /\ forallb not_header (take i lines) = true.
Proof.
  assert (H : forall k, find_header k lines = Some (k + i)%nat ->
            (i < length lines)%nat
            /\ (exists line, lines !! i = Some line
                   /\ Str.startswith header_text (Str.strip line) = true)
            /\ forallb not_header (take i lines) = true).
  { revert i. induction lines as [|l lines IH]; intros i k; cbn [find_header].
    - discriminate.
    - destruct (Str.startswith header_text (Str.strip l)) eqn:Hl.
      + intros [= Hk]. assert (i = 0%nat) by lia. subst i. simpl.
        repeat split; [lia|]. exists l. split; [reflexivity | exact Hl].
      + intros Hfind. destruct i as [|i].
        * rewrite find_header_shift in Hfind.
          destruct (find_header 0 lines); simpl in Hfind; [|discriminate].
          injection Hfind as Hfind. lia.
        * replace (k + S i)%nat with (S k + i)%nat in Hfind by lia.
          destruct (IH i (S k) Hfind) as (Hlt & Hline & Hbefore).
          simpl. repeat split; [lia | exact Hline |].
          unfold not_header at 1. rewrite Hl. exact Hbefore. }
  intros Hfind. apply (H 0%nat). exact Hfind.
Qed.

Lemma X1_witness :
  (4 < length (Str.readlines sample_text))%nat
  /\ (exists line, Str.readlines sample_text !! 4%nat = Some line
                   /\ Str.startswith header_text (Str.strip line) = true)
  /\ forallb not_header (take 4 (Str.readlines sample_text)) = true.
Proof.
  apply (X1_find_header_sound (Str.readlines sample_text) 4).
  vm_compute. reflexivity.
Defined.

(** X2. Whole lines put before the input, none of which starts the
    table, change nothing: the run on the longer text ends in the same
    state, with the same result, as the run on the input alone. *)
Theorem X2_preamble_is_ignored (existing : option string) (pre text : string) :
  whole_lines pre = true ->
  forallb not_header (Str.readlines pre) = true ->
  run existing (pre ++ text) = run existing text.
Proof.
  intros Hwhole Hpre. unfold run, convert_schwab_csv_to_txf.
  rewrite (readlines_app pre text Hwhole).
  rewrite (find_header_app _ _ 0%nat Hpre), find_header_shift.
  destruct (find_header 0 (Str.readlines text)) as [i|]; [|reflexivity].
  simpl. rewrite csv_content_app. reflexivity.
Qed.

Lemma X2_witness :
  run None (("Account summary" ++ nl ++ nl) ++ small_wash_text)
  = run None small_wash_text.
Proof.
  apply X2_preamble_is_ignored; vm_compute; reflexivity.
Defined.

(** X3. With the header row found, the three plain totals at the end
    of the run are the amounts of the emitted transactions added in row
    order, from zero, by floating-point addition: rows that are skipped
    add nothing to them. *)
Theorem X3_totals_are_sums_over_emitted
  (existing : option string) (text : string) (header_index : nat) :
  find_header 0 (Str.readlines text) = Some header_index ->
  total_proceeds (run existing text).1
  = fold_left (fun acc t => Float.add acc (t_proceeds t))
              (emitted (rows_of text)) Float.zero
  /\ total_basis (run existing text).1
     = fold_left (fun acc t => Float.add acc (t_basis t))
                 (emitted (rows_of text)) Float.zero
  /\ total_wash (run existing text).1
     = fold_left (fun acc t => Float.add acc (t_wash t))
                 (emitted (rows_of text)) Float.zero.
Proof.
  intros Hfound. rewrite (run_spec existing text header_index Hfound).
  repeat split.
Qed.

Lemma X3_witness :
  total_proceeds (run None sample_text).1
  = default Float.zero (Float.of_string "3000")
  /\ total_basis (run None sample_text).1
     = default Float.zero (Float.of_string "3000.5")
  /\ total_wash (run None sample_text).1
     = default Float.zero (Float.of_string "12.345").
Proof.
  destruct (X3_totals_are_sums_over_emitted None sample_text 4%nat
              ltac:(vm_compute; reflexivity)) as (-> & -> & ->).
  vm_compute. repeat split.
Defined.

(** X4. With the header row found, the wash-adjusted total at the end
    of the run is the sum, in row order, of the wash-adjusted gain or
    loss of every row whose three amounts are numbers, whether the row
    is emitted or skipped for its dates. *)
Theorem X4_wash_adjusted_total_is_sum_over_counted
  (existing : option string) (text : string) (header_index : nat) :
  find_header 0 (Str.readlines text) = Some header_index ->
  total_wash_adjusted_gain_loss (run existing text).1
  = fold_left Float.add (counted_gains (rows_of text)) Float.zero.
Proof.
  intros Hfound. rewrite (run_spec existing text header_index Hfound).
  reflexivity.
Qed.

Lemma X4_witness :
  counted_gains (rows_of sample_text)
  = [default Float.zero (Float.of_string "500");
     default Float.zero (Float.of_string "-10");
     Float.sub (default Float.zero (Float.of_string "1500"))
       (Float.sub (default Float.zero (Float.of_string "2000.5"))
          (default Float.zero (Float.of_string "12.345")))]
  /\ total_wash_adjusted_gain_loss (run None sample_text).1
     = fold_left Float.add (counted_gains (rows_of sample_text)) Float.zero.
Proof.
  split; [vm_compute; reflexivity|].
  apply (X4_wash_adjusted_total_is_sum_over_counted None sample_text 4%nat).
  vm_compute. reflexivity.
Defined.

(** X5. With the header row found, the run prints one diagnostic for
    every skipped row, in row order, and then, only when the loop ends
    without an exception, the six lines of the totals report; it ends
    with the exception of the first row that crashes, else with the
    error of the reader, else normally. *)
Theorem X5_diagnostics_then_totals
  (existing : option string) (text : string) (header_index : nat) :
  find_header 0 (Str.readlines text) = Some header_index ->
  (run existing text).2 = loop_result (rows_of text) (csv_error_of text)
  /\ stdout (run existing text).1
     = (diagnostics (rows_of text)
        ++ match (run existing text).2 with
           | Return _ =>
               totals_lines (total_proceeds (run existing text).1)
                            (total_basis (run existing text).1)
                            (total_wash (run existing text).1)
                            (total_wash_adjusted_gain_loss (run existing text).1)
           | Raise _ => []
           end)%list.
Proof.
  intros Hfound. rewrite (run_spec existing text header_index Hfound).
  cbv zeta. split; reflexivity.
Qed.

Lemma X5_witness :
  (run None sample_text).2 = Return tt
  /\ stdout (run None sample_text).1
     = [ErrorProcessingRow bad_acquired_row "Invalid Date acquired format";
        Line "Verify these totals with your Schwab 1099-B summary:";
        Line "Total Proceeds: $3000.00";
        Line "Total Basis: $3000.50";
        Line "Total Wash Sale Adjustments: $12.35";
        Line "Total Gain/Loss: $-0.50";
        Line "Wash-Adjusted Total Gain/Loss: $1.85"].
Proof.
  destruct (X5_diagnostics_then_totals None sample_text 4%nat
              ltac:(vm_compute; reflexivity)) as [-> ->].
  split; vm_compute; reflexivity.
Defined.

(** X6. A row whose cells are read but one of whose amounts is not a
    number is skipped before anything is counted: the four totals and
    the output file stay as they were, one diagnostic is printed, and
    the loop goes on. *)
Theorem X6_invalid_amount_counts_nothing
  (row : gmap string value) (f : Fields) (st : state) :
  extract row = inr f ->
  monetary f = None ->
  process_row row st
  = (st_print (ErrorProcessingRow row "Invalid monetary value in row") st,
     Return tt).
Proof.
  intros Hex Hmoney. rewrite process_row_normalize. unfold normalize.
  rewrite Hex, Hmoney. reflexivity.
Qed.

Lemma X6_witness :
  process_row
    (make_row sample_fieldnames
       ["9 sh. GHI"; "01/01/2023"; "02/01/2024"; "abc"; "20"; ""; "A"])
    (initial_state (Some ""))
  = (st_print
       (ErrorProcessingRow
          (make_row sample_fieldnames
             ["9 sh. GHI"; "01/01/2023"; "02/01/2024"; "abc"; "20"; ""; "A"])
          "Invalid monetary value in row")
       (initial_state (Some "")),
     Return tt).
Proof.
  apply (X6_invalid_amount_counts_nothing _
           {| f_description := "9 sh. GHI"; f_date_acquired := "01/01/2023";
              f_date_sold := "02/01/2024"; f_proceeds := "abc";
              f_basis := "20"; f_wash := ""; f_form_8949_code := "A" |});
    vm_compute; reflexivity.
Defined.

(** X7. A string that starts with a dollar sign is no number.  The
    dollar sign is taken off the wash-sale cell only, so a row whose
    cleaned proceeds or basis starts with one is skipped as having an
    invalid amount. *)
Theorem X7_dollar_sign_only_in_wash_cell :
  (forall s : string, Float.of_string (String "$" s) = None)
  /\ (forall s : string, drop_dollar (String "$" s) = s)
  /\ (forall (row : gmap string value) (f : Fields) (st : state),
        extract row = inr f ->
        Str.startswith "$" (f_proceeds f) || Str.startswith "$" (f_basis f)
        = true ->
        process_row row st
        = (st_print (ErrorProcessingRow row "Invalid monetary value in row") st,
           Return tt)).
Proof.
  assert (Hdollar : forall s : string, Float.of_string (String "$" s) = None).
  { intros s. unfold Float.of_string, Str.strip_by.
    change (Str.lstrip_by Float.py_isspace (String "$" s)) with (String "$" s).
    change (Str.rstrip_by Float.py_isspace (String "$" s))
      with (String "$" (Str.rstrip_by Float.py_isspace s)).
    change (Float.remove_underscores "000"
              (String "$" (Str.rstrip_by Float.py_isspace s)))
      with (String "$" <$> Float.remove_underscores "$"
                             (Str.rstrip_by Float.py_isspace s)).
    destruct (Float.remove_underscores "$" _) as [t|]; reflexivity. }
  assert (Hstarts : forall s, Str.startswith "$" s = true ->
                              Float.of_string s = None).
  { intros [|c s]; [discriminate|]. cbn [Str.startswith].
    rewrite andb_true_r. intros Hc. apply Ascii.eqb_eq in Hc. subst c.
    apply Hdollar. }
  split; [exact Hdollar|]. split; [reflexivity|].
  intros row f st Hex Hor. rewrite process_row_normalize. unfold normalize.
  rewrite Hex.
  assert (Hmoney : monetary f = None).
  { unfold monetary. apply orb_prop in Hor as [H|H].
    - rewrite (Hstarts _ H). reflexivity.
    - rewrite (Hstarts _ H). destruct (Float.of_string (f_proceeds f)); reflexivity. }
  rewrite Hmoney. reflexivity.
Qed.

Lemma X7_witness :
  process_row
    (make_row sample_fieldnames
       ["9 sh. GHI"; "01/01/2023"; "02/01/2024"; "$1,500.00"; "20"; ""; "A"])
    (initial_state (Some ""))
  = (st_print
       (ErrorProcessingRow
          (make_row sample_fieldnames
             ["9 sh. GHI"; "01/01/2023"; "02/01/2024"; "$1,500.00"; "20"; "";
              "A"])
          "Invalid monetary value in row")
       (initial_state (Some "")),
     Return tt).
Proof.
  apply (proj2 (proj2 X7_dollar_sign_only_in_wash_cell) _
           {| f_description := "9 sh. GHI"; f_date_acquired := "01/01/2023";
              f_date_sold := "02/01/2024"; f_proceeds := "$1500.00";
              f_basis := "20"; f_wash := ""; f_form_8949_code := "A" |});
    vm_compute; reflexivity.
Defined.

(** X8. Cleaning an amount drops every comma, wherever it stands: no
    comma is left, a comma put anywhere changes nothing, and a string
    without commas is only trimmed. *)
Theorem X8_commas_are_dropped_anywhere :
  (forall s : string,
     all_chars (fun c => negb (Ascii.eqb c ",")) (Str.remove_commas s) = true)
  /\ (forall a b : string,
        clean_amount (a ++ "," ++ b) = clean_amount (a ++ b))
  /\ (forall s : string,
        all_chars (fun c => negb (Ascii.eqb c ",")) s = true ->
        clean_amount s = Str.strip s).
Proof.
  split; [|split].
  - induction s as [|c s IH]; [reflexivity|]. simpl.
    destruct (Ascii.eqb c ",") eqn:Hc; [exact IH|]. simpl. rewrite Hc. exact IH.
  - intros a b. unfold clean_amount. f_equal.
    change ("," ++ b) with (String "," b).
    induction a as [|c a IH]; [reflexivity|]. simpl. rewrite IH. reflexivity.
  - intros s Hs. unfold clean_amount. f_equal.
    induction s as [|c s IH]; [reflexivity|]. simpl in *.
    apply andb_prop in Hs as [Hc Hs]. apply negb_true_iff in Hc.
    rewrite Hc, (IH Hs). reflexivity.
Qed.

Lemma X8_witness : clean_amount " 1,500.00 " = Str.strip " 1500.00 ".
Proof.
  rewrite <- (proj2 (proj2 X8_commas_are_dropped_anywhere) " 1500.00 ")
    by (vm_compute; reflexivity).
  exact (proj1 (proj2 X8_commas_are_dropped_anywhere) " 1" "500.00 ").
Defined.

(** X9. When the names of the header row are pairwise distinct, the
    cell that a row holds under the name at a position is the cell of
    the line at that position, and [None] when the line is too short to
    have one. *)
Theorem X9_cell_under_header_name
  (fieldnames cells : list string) (i : nat) (key : string) :
  distinct fieldnames = true ->
  fieldnames !! i = Some key ->
  make_row fieldnames cells !! key
  = Some (match cells !! i with
          | Some c => VStr c
          | None => VNone
          end).
Proof.
  unfold make_row, dict_zip. generalize (∅ : gmap string value).
  revert cells i.
  induction fieldnames as [|k0 fns IH]; intros cells i d Hdist Hi;
    [discriminate|].
  cbn [distinct] in Hdist. apply andb_prop in Hdist as [Hk0 Hdist].
  apply negb_true_iff in Hk0.
  assert (Hnotin : ~ In k0 fns).
  { intros Hin.
    assert (existsb (String.eqb k0) fns = true); [|congruence].
    apply existsb_exists. exists k0. split; [exact Hin | apply String.eqb_refl]. }
  destruct cells as [|c cells].
  - assert (Hin : In key (k0 :: fns)).
    { apply list_elem_of_In. eapply list_elem_of_lookup_2. exact Hi. }
    change (zip (k0 :: fns) []) with (@nil (string * string)).
    change (drop (length (@nil string)) (k0 :: fns)) with (k0 :: fns).
    change (@nil string !! i) with (@None string).
    cbn [foldl]. apply (restval_fold_present key (k0 :: fns) d Hin).
  - cbn [zip zip_with foldl length drop].
    destruct i as [|i].
    + injection Hi as ->. cbn [lookup list_lookup].
      rewrite restval_fold_absent
        by (intros Hin; exact (Hnotin (In_drop _ _ _ Hin))).
      rewrite dict_zip_fold_absent; [apply lookup_insert_eq|].
      intros kv Hin <-. exact (Hnotin (In_zip_l _ _ _ Hin)).
    + cbn [lookup list_lookup]. apply IH; assumption.
Qed.

Lemma X9_witness :
  make_row sample_fieldnames ["5 sh. ABC"; "13/45/2024"] !! "Date acquired"
  = Some (VStr "13/45/2024")
  /\ make_row sample_fieldnames ["5 sh. ABC"; "13/45/2024"] !! "Proceeds"
     = Some VNone.
Proof.
  split.
  - apply (X9_cell_under_header_name sample_fieldnames
             ["5 sh. ABC"; "13/45/2024"] 1 "Date acquired");
      vm_compute; reflexivity.
  - apply (X9_cell_under_header_name sample_fieldnames
             ["5 sh. ABC"; "13/45/2024"] 3 "Proceeds");
      vm_compute; reflexivity.
Defined.

(** X10. Cells beyond the columns of the header row change no cell
    that the converter reads: a line with surplus cells is normalized,
    counted and written exactly as the line cut to the length of the
    header row. *)
Theorem X10_surplus_cells_are_ignored
  (fieldnames cells surplus : list string) (st : state) :
  length cells = length fieldnames ->
  (forall key : string,
     make_row fieldnames (cells ++ surplus) !! key
     = make_row fieldnames cells !! key)
  /\ normalize (make_row fieldnames (cells ++ surplus))
     = normalize (make_row fieldnames cells)
  /\ txf_file (process_row (make_row fieldnames (cells ++ surplus)) st).1
     = txf_file (process_row (make_row fieldnames cells) st).1
  /\ (process_row (make_row fieldnames (cells ++ surplus)) st).2
     = (process_row (make_row fieldnames cells) st).2.
Proof.
  intros Hlen.
  assert (Hrow : make_row fieldnames (cells ++ surplus)
                 = make_row fieldnames cells).
  { unfold make_row, dict_zip.
    rewrite !drop_ge by (rewrite ?length_app; lia).
    f_equal. f_equal. clear st. revert cells Hlen.
    induction fieldnames as [|k fns IH]; intros [|c cells] Hlen;
      try discriminate; [destruct surplus; reflexivity|].
    simpl. f_equal. apply IH. simpl in Hlen. lia. }
  rewrite Hrow. repeat split.
Qed.

Lemma X10_witness :
  normalize (make_row no_proceeds_fieldnames (no_proceeds_cells ++ ["x"; "y"]))
  = normalize (make_row no_proceeds_fieldnames no_proceeds_cells).
Proof.
  apply (X10_surplus_cells_are_ignored no_proceeds_fieldnames no_proceeds_cells
           ["x"; "y"] (initial_state None)).
  reflexivity.
Defined.

(** X12. An empty line between data lines is skipped: when the header
    line and the lines before the empty one are whole records, the rows
    are those of the text without the empty line. *)
Theorem X12_blank_lines_are_skipped (header : string) (before after : list string) :
  complete_record header = true ->
  forallb complete_record before = true ->
  DictReader (header :: before ++ nl :: after)
  = DictReader (header :: before ++ after).
Proof.
  assert (Hstep : forall l ls, complete_record l = true ->
            reader_rows parse_reset (l :: ls)
            = (record_of l :: (reader_rows parse_reset ls).1,
               (reader_rows parse_reset ls).2)).
  { intros l ls Hl. unfold complete_record, record_of in *.
    cbn [reader_rows]. destruct (feed_line parse_reset l) as [r|]; [|discriminate].
    destruct (Csv.state r); try discriminate.
    destruct (reader_rows parse_reset ls). reflexivity. }
  assert (Hblank : forall ls,
            reader_rows parse_reset (nl :: ls)
            = ([] :: (reader_rows parse_reset ls).1,
               (reader_rows parse_reset ls).2)).
  { intros ls. exact (Hstep nl ls eq_refl). }
  assert (Hmany : forall ls rest, forallb complete_record ls = true ->
            reader_rows parse_reset (ls ++ rest)
            = ((map record_of ls ++ (reader_rows parse_reset rest).1)%list,
               (reader_rows parse_reset rest).2)).
  { induction ls as [|l ls IH]; intros rest Hls.
    - simpl. destruct (reader_rows parse_reset rest). reflexivity.
    - cbn [forallb] in Hls. apply andb_prop in Hls as [Hl Hls].
      change ((l :: ls) ++ rest)%list with (l :: (ls ++ rest))%list.
      rewrite (Hstep l _ Hl), (IH rest Hls). reflexivity. }
  intros Hheader Hbefore. unfold DictReader, reader.
  rewrite !(Hstep header _ Hheader), !(Hmany before _ Hbefore), Hblank.
  cbn [fst snd]. f_equal. f_equal.
  rewrite !filter_app. reflexivity.
Qed.

Lemma X12_witness :
  DictReader ((sample_header ++ nl) :: ["a,b" ++ nl] ++ nl :: ["c,d" ++ nl])
  = DictReader ((sample_header ++ nl) :: ["a,b" ++ nl] ++ ["c,d" ++ nl]).
Proof.
  apply X12_blank_lines_are_skipped; vm_compute; reflexivity.
Defined.

(** X11. A date that the parser accepts is a calendar date: its year
    is from 1 to 9999, its month from 1 to 12 and its day exists in that
    month.  From the year 1000 on the normalized text of the date is
    accepted again and gives the same date, so normalizing a normalized
    date changes nothing. *)
Theorem X11_normalized_date_is_a_fixed_point (s : string) (d : Date.date) :
  Date.strptime s = Some d ->
  (1 <= Date.year d <= 9999
   /\ 1 <= Date.month d <= 12
   /\ 1 <= Date.day d <= Date.days_in_month (Date.year d) (Date.month d))
  /\ (1000 <= Date.year d -> Date.strptime (Date.strftime d) = Some d).
Proof.
  intros Hparse.
  assert (Hmake : Date.make_date (Date.year d) (Date.month d) (Date.day d)
                  = Some d).
  { unfold Date.strptime in Hparse.
    destruct (Date.re_matches s) as [|[[[y m] dd] rest] ms]; [discriminate|].
    destruct (Str.is_empty rest); [|discriminate].
    unfold Date.make_date in *.
    destruct (_ && _)%bool eqn:Hok in Hparse; [|discriminate].
    injection Hparse as <-. cbn [Date.year Date.month Date.day].
    rewrite Hok. reflexivity. }
  assert (Hvalid : 1 <= Date.year d <= 9999
                   /\ 1 <= Date.month d <= 12
                   /\ 1 <= Date.day d
                      <= Date.days_in_month (Date.year d) (Date.month d)).
  { unfold Date.make_date in Hmake.
    destruct (_ && _)%bool eqn:Hok in Hmake; [|discriminate].
    repeat (apply andb_prop in Hok; destruct Hok as [Hok ?]).
    repeat match goal with
           | H : (_ <=? _) = true |- _ => apply Z.leb_le in H
           end.
    lia. }
  split; [exact Hvalid|]. intros Hyear.
  destruct d as [y m dd]. cbn [Date.year Date.month Date.day] in *.
  assert (Hy : Date.re_Y (Date.four_digits y) = [(y, "")]).
  { unfold Date.re_Y, Date.four_digits. rewrite !digit_char_is_digit.
    rewrite !digit_digit_char. cbn [andb]. f_equal. f_equal.
    Z.div_mod_to_equations. lia. }
  assert (Hdim : Date.days_in_month y m <= 31).
  { unfold Date.days_in_month.
    repeat match goal with |- context [if ?b then _ else _] => destruct b end;
      lia. }
  unfold Date.strptime, Date.strftime, Date.re_matches.
  cbn [Date.year Date.month Date.day].
  remember (Date.four_digits y) as ys eqn:Hys. clear Hys.
  assert (Hm : m = 1 \/ m = 2 \/ m = 3 \/ m = 4 \/ m = 5 \/ m = 6 \/ m = 7
               \/ m = 8 \/ m = 9 \/ m = 10 \/ m = 11 \/ m = 12) by lia.
  assert (Hd : dd = 1 \/ dd = 2 \/ dd = 3 \/ dd = 4 \/ dd = 5 \/ dd = 6
               \/ dd = 7 \/ dd = 8 \/ dd = 9 \/ dd = 10 \/ dd = 11
               \/ dd = 12 \/ dd = 13 \/ dd = 14 \/ dd = 15 \/ dd = 16
               \/ dd = 17 \/ dd = 18 \/ dd = 19 \/ dd = 20 \/ dd = 21
               \/ dd = 22 \/ dd = 23 \/ dd = 24 \/ dd = 25 \/ dd = 26
               \/ dd = 27 \/ dd = 28 \/ dd = 29 \/ dd = 30 \/ dd = 31) by lia.
  clear Hvalid Hdim.
  repeat (destruct Hm as [Hm|Hm]; [subst m|]); [..|subst m];
    repeat (destruct Hd as [Hd|Hd]; [subst dd|]); try subst dd;
    cbv -[Date.re_Y Date.make_date]; rewrite Hy;
    cbv -[Date.re_Y Date.make_date]; exact Hmake.
Qed.

Lemma X11_witness :
  Date.strptime (Date.strftime {| Date.year := 2024; Date.month := 3; Date.day := 4 |})
  = Some {| Date.year := 2024; Date.month := 3; Date.day := 4 |}.
Proof.
  apply (proj2 (X11_normalized_date_is_a_fixed_point "3/4/2024" _
                  ltac:(vm_compute; reflexivity))).
  vm_compute. discriminate.
Defined.

(** X13. Every finite amount is printed by the two-decimal format as
    an optional minus sign, at least one digit, a point and exactly two
    digits. *)
Theorem X13_finite_amounts_have_two_decimals (x : float) :
  is_finite x = true -> has_two_decimals (Float.format_2f x) = true.
Proof. apply has_two_decimals_format_2f. Qed.

Lemma X13_witness :
  has_two_decimals
    (Float.format_2f (default Float.zero (Float.of_string "-1500.5"))) = true.
Proof.
  apply X13_finite_amounts_have_two_decimals. vm_compute. reflexivity.
Defined.

(** X14. The record writer called on any strings: when the proceeds,
    the basis and a non-empty wash string all read as numbers it writes
    one block and raises nothing, the wash-sale line being that of the
    wash number and absent for an empty wash string; otherwise it raises
    a [ValueError] and writes nothing. *)
Theorem X14_write_txf_record_alone
  (description date_acquired date_sold proceeds basis wash record_type : string)
  (st : state) :
  match Float.of_string proceeds, Float.of_string basis,
        (if Str.is_empty wash then Some Float.zero else Float.of_string wash)
  with
  | Some p, Some b, Some w =>
      write_txf_record description date_acquired date_sold proceeds basis
        wash record_type st
      = (st_write
           (unlines (record_lines record_type description date_acquired
                       date_sold (Float.format_2f b) (Float.format_2f p)
                       (wash_line w)))
           st,
         Return tt)
  | _, _, _ =>
      exists msg,
        write_txf_record description date_acquired date_sold proceeds basis
          wash record_type st
        = (st, Raise (ValueError msg))
  end.
Proof.
  destruct (Float.of_string proceeds) as [p|] eqn:Hp.
  2:{ eexists. unfold write_txf_record, py_float. rewrite Hp. reflexivity. }
  destruct (Float.of_string basis) as [b|] eqn:Hb.
  2:{ eexists. unfold write_txf_record, py_float. rewrite Hp, Hb. reflexivity. }
  destruct (Str.is_empty wash) eqn:Hemp.
  - destruct wash; [|discriminate].
    exact (write_txf_record_block description date_acquired date_sold
             proceeds basis "" record_type p b Float.zero st Hp Hb eq_refl).
  - destruct (Float.of_string wash) as [w|] eqn:Hw.
    2:{ eexists. unfold write_txf_record, py_float.
        rewrite Hp, Hb, Hemp, Hw. reflexivity. }
    destruct (Float.ne w Float.zero) eqn:Hne.
    + pose proof (write_txf_record_block description date_acquired date_sold
                    proceeds basis wash record_type p b w st Hp Hb) as Hblock.
      rewrite Hemp, Hne in Hblock. exact (Hblock Hw).
    + destruct (ne_zero_false w Hne) as [sg ->].
      unfold write_txf_record.
      rewrite (py_float_some _ _ Hp), (py_float_some _ _ Hb), Hemp,
        (py_float_some _ _ Hw).
      unfold mbind, M_bind, mret, M_ret.
      rewrite (py_float_some _ _ (of_string_format_2f (S754_zero sg))).
      unfold mret, M_ret, reparse.
      rewrite Hne.
      unfold write, modify, unlines, record_lines, wash_line, Str.join, nl; simpl;
        repeat (rewrite append_assoc; simpl); reflexivity.
Qed.

(** X15. The digits that the two-decimal format prints for a finite
    non-zero number are its magnitude in hundredths rounded to the
    nearest whole number: the printed amount is off by at most half a
    hundredth, and exactly half only towards an even last digit. *)
Theorem X15_printed_amount_is_the_nearest_hundredth
  (neg : bool) (m : positive) (e : Z) :
  let c := Float.centis m e in
  Float.format_2f (S754_finite neg m e)
  = Float.sign_string neg ++ Float.dec (c / 100) ++ "."
    ++ Date.two_digits (c mod 100)
  /\ Float.digits_value 0 (Float.dec (c / 100) ++ Date.two_digits (c mod 100))
     = c
  /\ (0 <= e -> c = Zpos m * 2 ^ e * 100)
  /\ (e < 0 -> 2 * Z.abs (Zpos m * 100 - c * 2 ^ (- e)) <= 2 ^ (- e))
  /\ (e < 0 -> 2 * Z.abs (Zpos m * 100 - c * 2 ^ (- e)) = 2 ^ (- e) ->
      Z.even c = true).
Proof.
  intros c. pose proof (centis_nonneg m e) as Hc. fold c in Hc.
  split; [reflexivity|]. split.
  - rewrite digits_value_dec by (apply Z.div_pos; lia).
    rewrite digits_value_two_digits by (apply Z.mod_pos_bound; lia).
    pose proof (Z.div_mod c 100). lia.
  - assert (Hneg : e < 0 ->
              c = Float.rne_div (Zpos m * 100) (2 ^ (- e)) /\ 0 < 2 ^ (- e)).
    { intros He. subst c. unfold Float.centis.
      replace (0 <=? e) with false by (symmetry; apply Z.leb_gt; lia).
      split; [reflexivity | apply Z.pow_pos_nonneg; lia]. }
    split; [|split].
    + intros He. subst c. unfold Float.centis.
      replace (0 <=? e) with true by (symmetry; apply Z.leb_le; lia).
      reflexivity.
    + intros He. destruct (Hneg He) as [Hcd Hd]. rewrite Hcd.
      unfold Float.rne_div.
      pose proof (Z.div_mod (Zpos m * 100) (2 ^ (- e)) ltac:(lia)) as Hdm.
      pose proof (Z.mod_pos_bound (Zpos m * 100) (2 ^ (- e)) Hd) as Hr.
      set (n := Zpos m * 100) in *. set (d := 2 ^ (- e)) in *.
      set (q := n / d) in *. set (r := n mod d) in *.
      destruct (Z.compare_spec (2 * r) d) as [Heq|Hlt|Hgt];
        [destruct (Z.even q)| |]; nia.
    + intros He. destruct (Hneg He) as [Hcd Hd]. rewrite Hcd.
      unfold Float.rne_div.
      pose proof (Z.div_mod (Zpos m * 100) (2 ^ (- e)) ltac:(lia)) as Hdm.
      pose proof (Z.mod_pos_bound (Zpos m * 100) (2 ^ (- e)) Hd) as Hr.
      set (n := Zpos m * 100) in *. set (d := 2 ^ (- e)) in *.
      set (q := n / d) in *. set (r := n mod d) in *.
      destruct (Z.compare_spec (2 * r) d) as [Heq|Hlt|Hgt].
      * destruct (Z.even q) eqn:Hq; [intros _; exact Hq|].
        intros _. rewrite Z.even_add, Hq. reflexivity.
      * intros Htie. nia.
      * intros Htie. nia.
Qed.

(** X16. A file stored with CR LF line ends converts exactly like the
    same text stored with LF line ends. *)
Theorem X16_crlf_file_converts_like_lf
  (files : gmap string string) (p text : string) :
  all_chars not_cr text = true ->
  String.eqb (txf_file_path p) p = false ->
  let crlf := convert_path (<[p := to_crlf text]> files) p in
  let lf := convert_path (<[p := text]> files) p in
  crlf.1.2 = lf.1.2
  /\ crlf.2 = lf.2
  /\ crlf.1.1 !! txf_file_path p = lf.1.1 !! txf_file_path p.
Proof.
  intros Hcr Hne. apply String.eqb_neq in Hne.
  cbv zeta. unfold convert_path.
  rewrite !lookup_insert_eq, !lookup_insert_ne by congruence.
  rewrite (universal_newlines_to_crlf _ Hcr), (universal_newlines_id _ Hcr).
  destruct (run _ _) as [st r]. cbn [fst snd].
  repeat split.
  destruct (txf_file st) as [written|].
  - rewrite !lookup_insert_eq. reflexivity.
  - rewrite !lookup_insert_ne by congruence. reflexivity.
Qed.

Lemma X16_witness :
  (convert_path (<["1099.csv" := to_crlf sample_text]> ∅) "1099.csv").2
  = (convert_path (<["1099.csv" := sample_text]> ∅) "1099.csv").2.
Proof.
  exact (proj1 (proj2 (X16_crlf_file_converts_like_lf ∅ "1099.csv" sample_text
                         ltac:(vm_compute; reflexivity)
                         ltac:(vm_compute; reflexivity)))).
Defined.

(** X17. The output path is the input path with its extension replaced
    by [.TXF]: the extension starts at the last dot of the file name,
    when a character that is no dot comes before it in the name. *)
Theorem X17_output_path_replaces_the_extension (dir name ext : string) :
  has_no "/" name = true -> only_dots name = false ->
  has_no "/" ext = true -> has_no "." ext = true ->
  txf_file_path (dir ++ name ++ "." ++ ext) = dir ++ name ++ ".TXF".
Proof.
  intros Hname Hdots Hsep Hdot. unfold txf_file_path.
  rewrite (splitext_extension dir name ext Hname Hdots Hsep Hdot).
  cbn [fst]. apply append_assoc.
Qed.

Lemma X17_witness :
  txf_file_path ("/home/me/taxes.2024/" ++ "1099.b" ++ "." ++ "csv")
  = "/home/me/taxes.2024/" ++ "1099.b" ++ ".TXF".
Proof.
  apply (X17_output_path_replaces_the_extension
           "/home/me/taxes.2024/" "1099.b" "csv"); vm_compute; reflexivity.
Defined.

(** X18. A file name without a dot has no extension, also when a
    directory of the path has one: the output path is the input path
    with [.TXF] added. *)
Theorem X18_output_path_without_extension (name : string) :
  has_no "." name = true ->
  txf_file_path name = name ++ ".TXF"
  /\ forall dir, txf_file_path (dir ++ "/" ++ name) = (dir ++ "/" ++ name) ++ ".TXF".
Proof.
  intros Hname. destruct (splitext_no_dot name Hname) as [Hplain Hdir].
  unfold txf_file_path. split.
  - rewrite Hplain. reflexivity.
  - intros dir. rewrite Hdir. reflexivity.
Qed.

Lemma X18_witness :
  txf_file_path ("taxes.2024" ++ "/" ++ "export") = "taxes.2024/export.TXF".
Proof.
  apply (proj2 (X18_output_path_without_extension "export"
                  ltac:(vm_compute; reflexivity)) "taxes.2024").
Defined.

(** X19. The main block exits with status 1 exactly when it is not given
    one argument, and then prints the usage line and touches no file;
    otherwise it exits with status 0, no file other than the output file
    changes, a missing input file or a missing header row leaves every
    file as it was with one line of error, and with the header row found
    the output file holds the header lines and the blocks of the emitted
    rows, whatever it held before. *)
Theorem X19_main_changes_only_the_output_file
  (argv : list string) (files : gmap string string) :
  let '(files', printed, status) := main argv files in
  (status = 1 <-> length argv <> 2%nat)
  /\ (status = 1 ->
      files' = files
      /\ printed = [Out (Line "Usage: python script.py <input_csv_file>")])
  /\ forall script p, argv = [script; p] ->
       status = 0
       /\ (forall q, q <> txf_file_path p -> files' !! q = files !! q)
       /\ (files !! p = None ->
           files' = files
           /\ printed = [Out (Line ("Error: Input file " ++ p ++ " not found."))])
       /\ (forall stored,
             files !! p = Some stored ->
             find_header 0 (Str.readlines (universal_newlines stored)) = None ->
             files' = files
             /\ printed
                = [Out (Line "Error: No Form 1099-B header found in the CSV file")])
       /\ (forall stored i,
             files !! p = Some stored ->
             find_header 0 (Str.readlines (universal_newlines stored)) = Some i ->
             files' !! txf_file_path p
             = Some (unlines header_lines
                     ++ Str.join (map txf_block
                                    (emitted (rows_of (universal_newlines stored)))))).
Proof.
  destruct (main argv files) as [[files' printed] status] eqn:Hmain.
  destruct argv as [|script [|p [|extra argv]]];
    try (injection Hmain as <- <- <-;
         split; [split; [intros _; cbn [length]; lia | reflexivity]|];
         split; [intros _; split; reflexivity|];
         intros ? ? [=]).
  cbn [main] in Hmain.
  pose proof (convert_path_other files p) as Hother.
  pose proof (convert_path_found files p) as Hfound.
  pose proof (convert_path_no_header files p) as Hnone.
  assert (Hmissing : files !! p = None ->
                     convert_path files p = (files, [], inl FileNotFoundError)).
  { intros H. unfold convert_path. rewrite H. reflexivity. }
  destruct (convert_path files p) as [[files1 printed1] r].
  injection Hmain as <- <- <-. cbn [fst snd] in *.
  split; [split; [discriminate | intros H; cbn [length] in H; lia]|].
  split; [discriminate|].
  intros script' p' [= <- <-].
  split; [reflexivity|].
  split; [exact Hother|].
  split; [|split].
  - intros H. specialize (Hmissing H). injection Hmissing as -> -> ->.
    split; reflexivity.
  - intros stored H1 H2. specialize (Hnone stored H1 H2).
    injection Hnone as -> -> ->. split; reflexivity.
  - exact Hfound.
Qed.

(** X20. An input file whose name ends in [.TXF] is its own output
    file: read whole first, it is then overwritten with the
    conversion of its contents. *)
Theorem X20_input_named_TXF_is_overwritten
  (files : gmap string string) (script dir name stored : string) (i : nat) :
  has_no "/" name = true -> only_dots name = false ->
  files !! (dir ++ name ++ ".TXF") = Some stored ->
  find_header 0 (Str.readlines (universal_newlines stored)) = Some i ->
  (main [script; dir ++ name ++ ".TXF"] files).1.1 !! (dir ++ name ++ ".TXF")
  = Some (unlines header_lines
          ++ Str.join (map txf_block (emitted (rows_of (universal_newlines stored))))).
Proof.
  intros Hname Hdots Hstored Hheader.
  assert (Hpath : txf_file_path (dir ++ name ++ ".TXF") = dir ++ name ++ ".TXF").
  { pose proof (splitext_extension dir name "TXF" Hname Hdots eq_refl eq_refl)
      as Hsplit.
    change ("." ++ "TXF") with ".TXF" in Hsplit.
    unfold txf_file_path. rewrite Hsplit. cbn [fst]. apply append_assoc. }
  pose proof (convert_path_found files _ stored i Hstored Hheader) as Hfound.
  rewrite Hpath in Hfound. cbn [main].
  destruct (convert_path files (dir ++ name ++ ".TXF")) as [[files1 printed1] r].
  exact Hfound.
Qed.

Lemma X20_witness :
  (main ["convert.py"; "" ++ "1099" ++ ".TXF"] {["1099.TXF" := sample_text]}).1.1
    !! ("" ++ "1099" ++ ".TXF")
  = Some (unlines header_lines
          ++ Str.join (map txf_block
                         (emitted (rows_of (universal_newlines sample_text))))).
Proof.
  apply (X20_input_named_TXF_is_overwritten
           {["1099.TXF" := sample_text]} "convert.py" "" "1099" sample_text 4%nat);
    vm_compute; reflexivity.
Defined.

End Extras.
